(** * astrokit: two-line element sets and the SGP4 driver

    A shallow embedding of [src/tle.js]: the [TLE] class, whose constructor
    decodes the fixed-column text of a two-line element set and whose
    [sgp4] method binds the element set to a lazily created propagation
    record ([satrec]).

    The low-level propagator ([sgp4.js]: [getgravconst], [sgp4init],
    [sgp4]) and the date helper [Date.prototype.jd] are not part of the
    sources at hand; the driver takes them as parameters, and where a
    statement is about them they are modelled from the specification. *)

From Stdlib Require Import ZArith QArith Qabs Qcanon Qpower String Ascii List Lia.
From stdpp Require Import base option gmap strings.
Import ListNotations.

(** ** The JavaScript fragment the class relies on *)

Module JS.

(** JavaScript numbers.  Finite values are exact rationals kept in lowest
    terms: the decimal text of a field denotes the rational it spells.
    The rounding of that rational to the nearest IEEE-754 double, the
    sign of zero, overflow to infinity and underflow to zero are not
    modelled. *)
Inductive number : Type :=
| NaN
| PosInf
| NegInf
| Fin (q : Q).

Definition fin (q : Q) : number := Fin (Qred q).
Definition of_Z (z : Z) : number := fin (inject_Z z).

Definition number_eqb (a b : number) : bool :=
  match a, b with
  | PosInf, PosInf | NegInf, NegInf => true
  | Fin p, Fin q => Qeq_bool p q
  | _, _ => false
  end.

(** [a > b]; any comparison with NaN is false. *)
Definition gt (a b : number) : bool :=
  match a, b with
  | NaN, _ | _, NaN => false
  | PosInf, PosInf => false
  | PosInf, _ => true
  | _, PosInf => false
  | NegInf, _ => false
  | Fin _, NegInf => true
  | Fin p, Fin q => negb (Qle_bool p q)
  end.

Definition lt (a b : number) : bool := gt b a.

(** Unary minus. *)
Definition neg (a : number) : number :=
  match a with
  | NaN => NaN
  | PosInf => NegInf
  | NegInf => PosInf
  | Fin q => fin (- q)
  end.

Definition add (a b : number) : number :=
  match a, b with
  | NaN, _ | _, NaN => NaN
  | PosInf, NegInf | NegInf, PosInf => NaN
  | PosInf, _ | _, PosInf => PosInf
  | NegInf, _ | _, NegInf => NegInf
  | Fin p, Fin q => fin (p + q)
  end.

Definition sub (a b : number) : number := add a (neg b).

Definition sign_is_neg (q : Q) : bool := (Qnum q <? 0)%Z.
Definition is_zero (q : Q) : bool := (Qnum q =? 0)%Z.

Definition mul (a b : number) : number :=
  match a, b with
  | NaN, _ | _, NaN => NaN
  | Fin p, Fin q => fin (p * q)
  | Fin p, PosInf | PosInf, Fin p =>
      if is_zero p then NaN else if sign_is_neg p then NegInf else PosInf
  | Fin p, NegInf | NegInf, Fin p =>
      if is_zero p then NaN else if sign_is_neg p then PosInf else NegInf
  | PosInf, PosInf | NegInf, NegInf => PosInf
  | PosInf, NegInf | NegInf, PosInf => NaN
  end.

(** Division; a zero divisor is read as [+0]. *)
Definition div (a b : number) : number :=
  match a, b with
  | NaN, _ | _, NaN => NaN
  | Fin p, Fin q =>
      if is_zero q
      then (if is_zero p then NaN else if sign_is_neg p then NegInf else PosInf)
      else fin (p / q)
  | Fin _, (PosInf | NegInf) => of_Z 0
  | PosInf, Fin q => if sign_is_neg q then NegInf else PosInf
  | NegInf, Fin q => if sign_is_neg q then PosInf else NegInf
  | _, _ => NaN
  end.

(** [ToIntegerOrInfinity] on a finite value: truncation towards zero. *)
Definition trunc (q : Q) : Z := Z.quot (Qnum q) (Zpos (Qden q)).

(** ** Strings *)

(** [String.prototype.substr(start, length)] for non-negative arguments. *)
Definition substr (s : string) (start len : nat) : string :=
  String.substring start len s.

(** [String.prototype.substring(start, end)] for non-negative arguments;
    the two indices are swapped when [start > end]. *)
Definition substring (s : string) (a b : nat) : string :=
  String.substring (Nat.min a b) (Nat.max a b - Nat.min a b) s.

(** [String.prototype.substring(start)]: from [start] to the end. *)
Definition substring_from (s : string) (a : nat) : string :=
  String.substring a (String.length s - a) s.

(** [String.prototype.replace(pattern, replacement)] with a one-character
    string pattern: only the first occurrence is replaced. *)
Fixpoint replace (s : string) (pat : ascii) (by_ : string) : string :=
  match s with
  | EmptyString => EmptyString
  | String c r =>
      if Ascii.eqb c pat then String.append by_ r
      else String c (replace r pat by_)
  end.

(** ** [Number(string)]: the StringToNumber grammar *)

Definition is_space (c : ascii) : bool :=
  let n := nat_of_ascii c in
  (Nat.eqb n 9 || Nat.eqb n 10 || Nat.eqb n 11 || Nat.eqb n 12
   || Nat.eqb n 13 || Nat.eqb n 32)%bool.

Fixpoint drop_space (l : list ascii) : list ascii :=
  match l with
  | c :: r => if is_space c then drop_space r else l
  | [] => []
  end.

Definition trim (l : list ascii) : list ascii :=
  rev (drop_space (rev (drop_space l))).

Definition digit_of (c : ascii) : option Z :=
  let n := nat_of_ascii c in
  if (Nat.leb 48 n && Nat.leb n 57)%bool then Some (Z.of_nat (n - 48)) else None.

Definition hex_digit_of (c : ascii) : option Z :=
  let n := nat_of_ascii c in
  if (Nat.leb 48 n && Nat.leb n 57)%bool then Some (Z.of_nat (n - 48))
  else if (Nat.leb 65 n && Nat.leb n 70)%bool then Some (Z.of_nat (n - 55))
  else if (Nat.leb 97 n && Nat.leb n 102)%bool then Some (Z.of_nat (n - 87))
  else None.

(** The longest prefix of decimal digits, and what follows it. *)
Fixpoint take_digits (l : list ascii) : list Z * list ascii :=
  match l with
  | c :: r =>
      match digit_of c with
      | Some d => let '(ds, r') := take_digits r in (d :: ds, r')
      | None => ([], l)
      end
  | [] => ([], [])
  end.

Definition digits_value (base : Z) (ds : list Z) : Z :=
  fold_left (fun acc d => (base * acc + d)%Z) ds 0%Z.

(** All characters are digits of the base (at least one): their value. *)
Fixpoint radix_digits (base : Z) (l : list ascii) : option (list Z) :=
  match l with
  | [] => Some []
  | c :: r =>
      match hex_digit_of c with
      | Some d =>
          if (d <? base)%Z
          then match radix_digits base r with
               | Some ds => Some (d :: ds)
               | None => None
               end
          else None
      | None => None
      end
  end.

Definition radix_literal (base : Z) (l : list ascii) : number :=
  match l, radix_digits base l with
  | _ :: _, Some ds => of_Z (digits_value base ds)
  | _, _ => NaN
  end.

(** [mantissa * 10 ^ exponent]. *)
Definition scale10 (m e : Z) : number := fin (inject_Z m * (10 # 1) ^ e).

Definition take_sign (l : list ascii) : Z * list ascii :=
  match l with
  | "+"%char :: r => (1%Z, r)
  | "-"%char :: r => ((-1)%Z, r)
  | _ => (1%Z, l)
  end.

Definition is_e (c : ascii) : bool :=
  (Ascii.eqb c "e" || Ascii.eqb c "E")%bool.

Definition is_nil {A} (l : list A) : bool :=
  match l with [] => true | _ => false end.

(** StrDecimalLiteral: an optional sign, then [Infinity] or decimal digits
    with an optional fraction and an optional exponent part. *)
Definition decimal_literal (l : list ascii) : number :=
  let '(sg, l1) := take_sign l in
  if String.eqb (string_of_list_ascii l1) "Infinity"
  then (if (sg <? 0)%Z then NegInf else PosInf)
  else
    let '(ip, l2) := take_digits l1 in
    let '(fp, l3) :=
      match l2 with
      | "."%char :: r => take_digits r
      | _ => ([], l2)
      end in
    if (is_nil ip && is_nil fp)%bool then NaN
    else
      let m := (sg * digits_value 10 (ip ++ fp))%Z in
      let k := Z.of_nat (List.length fp) in
      match l3 with
      | [] => scale10 m (- k)
      | c :: r =>
          if is_e c then
            let '(es, r1) := take_sign r in
            let '(ed, r2) := take_digits r1 in
            if (is_nil ed || negb (is_nil r2))%bool then NaN
            else scale10 m (es * digits_value 10 ed - k)
          else NaN
      end.

(** [Number(s)] for a string [s]: surrounding white space is dropped
    (the ASCII white space and line terminators; element sets are ASCII
    text), the empty string is zero, [0x], [0o] and [0b] introduce unsigned
    integers of the base, anything outside the grammar is NaN. *)
Definition Number (s : string) : number :=
  match trim (list_ascii_of_string s) with
  | [] => of_Z 0
  | "0"%char :: c :: r =>
      if (Ascii.eqb c "x" || Ascii.eqb c "X")%bool then radix_literal 16 r
      else if (Ascii.eqb c "o" || Ascii.eqb c "O")%bool then radix_literal 8 r
      else if (Ascii.eqb c "b" || Ascii.eqb c "B")%bool then radix_literal 2 r
      else decimal_literal ("0"%char :: c :: r)
  | l => decimal_literal l
  end.

(** ** Values and property reads *)

(** The values held by the properties of a propagation record. *)
Inductive value : Type :=
| VUndef
| VBool (b : bool)
| VNum (n : number)
| VStr (s : string).

(** [ToNumber]. *)
Definition ToNumber (v : value) : number :=
  match v with
  | VUndef => NaN
  | VBool b => of_Z (if b then 1 else 0)
  | VNum n => n
  | VStr s => Number s
  end.

(** A plain object used as a record: reading an absent property gives
    [undefined]. *)
Definition get (o : gmap string value) (k : string) : value :=
  default VUndef (o !! k).

(** ** Dates, by their time value (milliseconds since 1970-01-01 UTC) *)

Definition msPerDay : Z := 86400000.

(** Day number of January 1st of year [y]. *)
Definition DayFromYear (y : Z) : Z :=
  (365 * (y - 1970) + (y - 1969) / 4 - (y - 1901) / 100 + (y - 1601) / 400)%Z.

(** [TimeClip]: a time value is an integer of magnitude at most 8.64e15. *)
Definition TimeClip (t : number) : number :=
  match t with
  | Fin q =>
      if Qle_bool (Qabs q) (inject_Z 8640000000000000) then of_Z (trunc q)
      else NaN
  | _ => NaN
  end.

(** [Date.UTC(year, 0, 1)]: midnight UTC of January 1st; a year number from
    0 to 99 is taken as 1900 + year. *)
Definition Date_UTC (year : number) : number :=
  match year with
  | Fin q =>
      let yi := trunc q in
      let yr := if ((0 <=? yi) && (yi <=? 99))%Z then (1900 + yi)%Z else yi in
      TimeClip (of_Z (DayFromYear yr * msPerDay))
  | _ => NaN
  end.

(** [new Date(value)], [getTime()] and [setTime(t)]. *)
Definition new_Date (v : number) : number := TimeClip v.
Definition getTime (d : number) : number := d.
Definition setTime (d : number) (t : number) : number := TimeClip t.

(** ** More of the runtime: [>=], [slice] and [split] *)

(** [a >= b]; false when either is NaN. *)
Definition ge (a b : number) : bool :=
  match a, b with
  | NaN, _ | _, NaN => false
  | _, _ => negb (lt a b)
  end.

(** [String.prototype.slice(start, end)] for non-negative arguments: the
    characters from [start] up to, not including, [end]; empty when
    [end <= start]. *)
Definition slice (s : string) (a b : nat) : string :=
  String.substring a (b - a) s.

Definition CR : ascii := ascii_of_nat 13.
Definition LF : ascii := ascii_of_nat 10.

(** [s.split(/\r\n|\r|\n/)]: the pieces between line terminators, a
    carriage return followed by a line feed counting as one terminator.
    The result is never empty: a text without terminator is its own only
    piece. *)
Fixpoint split_lines (s : string) : list string :=
  match s with
  | EmptyString => [EmptyString]
  | String c r =>
      if Ascii.eqb c CR then
        match r with
        | String c' r' =>
            if Ascii.eqb c' LF then EmptyString :: split_lines r'
            else EmptyString :: split_lines r
        | EmptyString => EmptyString :: split_lines r
        end
      else if Ascii.eqb c LF then EmptyString :: split_lines r
      else
        match split_lines r with
        | piece :: rest => String c piece :: rest
        | [] => [String c EmptyString]
        end
  end.

End JS.

(** Failures: the runtime's [TypeError] and the failure taxonomy of the
    specification. *)
Inductive error : Type :=
| TypeError
| ParseError
| UnknownModelError
| OrbitDecayedError
| ConvergenceError.

(** ** The element set: class [TLE] *)

Module Tle.
Import JS.

Local Open Scope string_scope.

(** The properties of a [TLE] object.  [epoch] is a [Date], held by its
    time value. *)
Record TLE : Type := mkTLE {
  raw : list (option string);
  name : string;
  satid : number;
  launch_year : number;
  launch_number : number;
  launch_piece : string;
  epoch : number;
  mean_motion_dot : number;
  mean_motion_dot_dot : number;
  bstar : number;
  elsetnum : number;
  inclination : number;
  raan : number;
  eccen : number;
  arg_of_perigee : number;
  mean_anomaly : number;
  mean_motion : number;
  revnum : number;
  (** [this.satrec]: [None] while the property is [undefined]. *)
  satrec : option (gmap string value)
}.

(** The first argument of the constructor: an array of lines, or one line
    (then the other lines follow as separate arguments).  A line is [None]
    when [undefined]. *)
Inductive lines_arg : Type :=
| Arr (l : list (option string))
| Line (s : option string).

(** [typeof line3]: the constructor's parameters are [lines], [tline2] and
    [tline3], and the file declares no [line3]; [typeof] of an unresolvable
    name is ["undefined"]. *)
Definition typeof_line3 : string := "undefined".

(** [a[i]]: [undefined] outside the array. *)
Definition at_index (a : list (option string)) (i : nat) : option string :=
  match a !! i with
  | Some x => x
  | None => None
  end.

(** The receiver of a method call: calling a method of [undefined] throws. *)
Definition receiver (x : option string) : error + string :=
  match x with
  | Some s => inr s
  | None => inl TypeError
  end.

Definition bind {A B} (m : error + A) (k : A -> error + B) : error + B :=
  match m with
  | inl e => inl e
  | inr a => k a
  end.

Notation "'let*' x ':=' m 'in' k" := (bind m (fun x => k))
  (at level 10, x name, m at level 100, k at level 200).

(** The two-digit year rules. *)
Definition resolve_launch_year (y : number) : number :=
  if gt y (of_Z 50) then add y (of_Z 1900) else add y (of_Z 2000).

Definition resolve_epoch_year (y : number) : number :=
  if gt y (of_Z 57) then add y (of_Z 1900) else add y (of_Z 2000).

(** [this.epoch], from the year and day-of-year columns of line 1.  The
    product and the sum are exact here; the doubles of the runtime round
    them before [setTime] cuts to whole milliseconds, so for a day of year
    whose fraction is not a binary fraction the time value of the runtime
    can be one millisecond off the one computed here.  Whole days and
    binary fractions of a day are computed without rounding by both. *)
Definition decode_epoch (line1 : string) : number :=
  let epoch_year := resolve_epoch_year (Number (substr line1 18 2)) in
  let epoch_day_of_year := Number (substr line1 20 12) in
  let epoch := new_Date (Date_UTC epoch_year) in
  setTime epoch
    (add (getTime epoch)
         (mul (mul (sub epoch_day_of_year (of_Z 1)) (of_Z 86400)) (of_Z 1000))).

(** [this.mean_motion_dot_dot]. *)
Definition decode_mean_motion_dot_dot (line1 : string) : number :=
  let v := Number (replace (substr line1 45 7) "-" "E-") in
  if String.eqb (substr line1 44 1) "-" then neg v else v.

(** [this.bstar]. *)
Definition decode_bstar (line1 : string) : number :=
  Number ("0." ++ replace (substr line1 54 7) "-" "E-").

(** The section "Parse the TLE" of the constructor: the properties read
    from fixed columns of the two element lines. *)
Definition parse_columns (lines : list (option string)) (name line1 line2 : string)
  : TLE :=
  {| raw := lines;
     name := name;
     satid := Number (substr line1 2 5);
     launch_year := resolve_launch_year (Number (substr line1 9 2));
     launch_number := Number (substr line1 11 3);
     launch_piece := substr line1 14 3;
     epoch := decode_epoch line1;
     mean_motion_dot := Number (substr line1 33 10);
     mean_motion_dot_dot := decode_mean_motion_dot_dot line1;
     bstar := decode_bstar line1;
     elsetnum := Number (substr line1 64 4);
     inclination := Number (substr line2 8 8);
     raan := Number (substr line2 17 8);
     eccen := Number ("0." ++ substr line2 26 7);
     arg_of_perigee := Number (substr line2 34 8);
     mean_anomaly := Number (substr line2 43 8);
     mean_motion := Number (substr line2 52 11);
     revnum := Number (substr line2 63 5);
     satrec := None |}.

(** The constructor, [new TLE(lines, tline2, tline3)]. *)
Definition new_TLE (lines : lines_arg) (tline2 tline3 : option string)
  : error + TLE :=
  let lines :=
    match lines with
    | Arr l => l
    | Line l =>
        if String.eqb typeof_line3 "undefined" then [l; tline2]
        else [l; tline2; tline3]
    end in
  let* parts :=
    (if Nat.eqb (List.length lines) 3 then
       let* l0 := receiver (at_index lines 0) in
       inr (if String.eqb (substring l0 0 1) "0" then substring_from l0 2 else l0,
            at_index lines 1, at_index lines 2)
     else inr ("unknown", at_index lines 0, at_index lines 1)) in
  let '(name, line1, line2) := parts in
  let* line1 := receiver line1 in
  let* line2 := receiver line2 in
  inr (parse_columns lines name line1 line2).

(** *** The element-set convention, for comparison *)

(** An eight-column decimal exponent field, as the convention defines it:
    a sign column (blank, [+] or [-]), five digits read after an implied
    ["0."], the sign of the exponent and one exponent digit; the value is
    [sign * 0.ddddd * 10 ^ (signed exponent)]. *)
Definition implied_decimal (field : string) : number :=
  match list_ascii_of_string field with
  | [s; d1; d2; d3; d4; d5; es; e] =>
      let sg :=
        if Ascii.eqb s "-" then Some (-1)%Z
        else if (Ascii.eqb s " " || Ascii.eqb s "+")%bool then Some 1%Z
        else None in
      let esg :=
        if Ascii.eqb es "-" then Some (-1)%Z
        else if Ascii.eqb es "+" then Some 1%Z
        else None in
      match sg, take_digits [d1; d2; d3; d4; d5], esg, digit_of e with
      | Some sg, (([_; _; _; _; _] as ds), []), Some esg, Some x =>
          scale10 (sg * digits_value 10 ds) (esg * x - 5)
      | _, _, _, _ => NaN
      end
  | _ => NaN
  end.

(** The epoch pivot of the convention: years 57 to 99 are 1957 to 1999,
    years 00 to 56 are 2000 to 2056. *)
Definition convention_epoch_year (y : Z) : Z :=
  if (57 <=? y)%Z then (1900 + y)%Z else (2000 + y)%Z.

(** Every text the constructor hands to [Number], with the property it
    decides, [epoch] apart: the property is that number, or for
    [launch_year] and [mean_motion_dot_dot] that number with the century
    added or the sign applied. *)
Definition number_texts (line1 line2 : string)
  : list (string * (TLE -> number)) :=
  [(substr line1 2 5, satid);
   (substr line1 9 2, launch_year);
   (substr line1 11 3, launch_number);
   (substr line1 33 10, mean_motion_dot);
   (replace (substr line1 45 7) "-" "E-", mean_motion_dot_dot);
   ("0." ++ replace (substr line1 54 7) "-" "E-", bstar);
   (substr line1 64 4, elsetnum);
   (substr line2 8 8, inclination);
   (substr line2 17 8, raan);
   ("0." ++ substr line2 26 7, eccen);
   (substr line2 34 8, arg_of_perigee);
   (substr line2 43 8, mean_anomaly);
   (substr line2 52 11, mean_motion);
   (substr line2 63 5, revnum)].

(** The two texts that decide [epoch]: the year and the day of the year. *)
Definition epoch_texts (line1 : string) : list string :=
  [substr line1 18 2; substr line1 20 12].

(** A pair of lines with a text [Number] cannot read: the plainest kind
    of malformed column data. *)
Definition unreadable (line1 line2 : string) : Prop :=
  (exists text field,
      In (text, field) (number_texts line1 line2) /\ Number text = NaN)
  \/ exists text, In text (epoch_texts line1) /\ Number text = NaN.

End Tle.

(** ** The driver: method [TLE.sgp4] *)

Module Driver.
Import JS Tle.

Local Open Scope string_scope.

(** A propagation record is a plain object. *)
Abbreviation record := (gmap string value).

(** What a call that was handed the record leaves behind: the record as
    the callee left it, and the value it returned or the failure it threw. *)
Definition outcome (A : Type) : Type := record * (error + A).

(** The functions [TLE.sgp4] calls and [tle.js] does not define:
    [getgravconst], [sgp4init] and [sgp4] of [sgp4.js], the method
    [Date.prototype.jd] at the UTC time scale, and the operator [**].
    Each is a function of its arguments and of the record it is handed:
    the callees hold no reference to the [TLE] object, so they can change
    the properties of the record and nothing else of the object. *)
Class Externals (result : Type) : Type := {
  getgravconst : string -> record -> outcome unit;
  sgp4init : list value -> record -> outcome unit;
  sgp4 : record -> number -> outcome result;
  jd : number -> number;
  pow : number -> number -> number
}.

(** [Math.PI], the double nearest to pi. *)
Definition Math_PI : number := fin (884279719003555 # 281474976710656).

(** The object after [this.satrec = rec], or after a callee changed the
    record it holds into [rec]. *)
Definition with_satrec (this : TLE) (rec : record) : TLE :=
  {| raw := raw this; name := name this; satid := satid this;
     launch_year := launch_year this; launch_number := launch_number this;
     launch_piece := launch_piece this; epoch := epoch this;
     mean_motion_dot := mean_motion_dot this;
     mean_motion_dot_dot := mean_motion_dot_dot this; bstar := bstar this;
     elsetnum := elsetnum this; inclination := inclination this;
     raan := raan this; eccen := eccen this;
     arg_of_perigee := arg_of_perigee this;
     mean_anomaly := mean_anomaly this; mean_motion := mean_motion this;
     revnum := revnum this; satrec := Some rec |}.

Section Sgp4Method.
Context {result : Type} {ext : Externals result}.

(** A numeric read of a property of the record. *)
Definition num (rec : record) (k : string) : number := ToNumber (get rec k).

(** The assignments between [getgravconst] and [sgp4init]. *)
Definition fill_elements (this : TLE) (rec : record) : record :=
  let twopi := mul Math_PI (of_Z 2) in
  let deg2rad := div Math_PI (of_Z 180) in
  let rec := <["no" := VNum (div (mean_motion this) (div (of_Z 1440) twopi))]> rec in
  let rec := <["no_kozai" := get rec "no"]> rec in
  let rec := <["bstar" := VNum (bstar this)]> rec in
  let rec := <["a" := VNum (pow (mul (num rec "no") (num rec "tumin"))
                                (div (neg (of_Z 2)) (of_Z 3)))]> rec in
  let rec := <["ndot" := VNum (div (mean_motion_dot this)
                                   (div (mul (of_Z 1440) (of_Z 1440)) twopi))]> rec in
  let rec := <["nddot" := VNum (div (mean_motion_dot_dot this)
                                    (div (mul (mul (of_Z 1440) (of_Z 1440)) (of_Z 1440))
                                         twopi))]> rec in
  let rec := <["inclo" := VNum (mul (inclination this) deg2rad)]> rec in
  let rec := <["nodeo" := VNum (mul (raan this) deg2rad)]> rec in
  let rec := <["argpo" := VNum (mul (arg_of_perigee this) deg2rad)]> rec in
  let rec := <["mo" := VNum (mul (mean_anomaly this) deg2rad)]> rec in
  let rec := <["ecco" := VNum (eccen this)]> rec in
  let rec := <["alta" := VNum (sub (mul (num rec "a")
                                        (sub (of_Z 1) (num rec "ecco")))
                                   (of_Z 1))]> rec in
  let rec := <["altp" := VNum (sub (mul (num rec "a")
                                        (add (of_Z 1) (num rec "ecco")))
                                   (of_Z 1))]> rec in
  let rec := <["jdsatepoch" := VNum (jd (epoch this))]> rec in
  let rec := <["init" := VStr "y"]> rec in
  <["t" := VNum (of_Z 0)]> rec.

(** The properties those assignments write. *)
Definition assigned_properties : list string :=
  ["no"; "no_kozai"; "bstar"; "a"; "ndot"; "nddot"; "inclo"; "nodeo"; "argpo";
   "mo"; "ecco"; "alta"; "altp"; "jdsatepoch"; "init"; "t"].

(** The body of [if (typeof this.satrec === 'undefined') { ... }], from
    [this.satrec = {}] on: the record is stored in [this] first, so it is
    there whatever the callees do. *)
Definition initialize (this : TLE) (whichconst : string) : outcome unit :=
  let rec : record := ∅ in
  match getgravconst whichconst rec with
  | (rec, inl e) => (rec, inl e)
  | (rec, inr _) =>
      let rec := fill_elements this rec in
      sgp4init
        [VStr whichconst; VStr "i"; VNum (satid this);
         VNum (sub (num rec "jdsatepoch") (fin (24332815 # 10)));
         get rec "bstar"; get rec "ndot"; get rec "nddot"; get rec "ecco";
         get rec "argpo"; get rec "inclo"; get rec "mo"; get rec "no";
         get rec "nodeo"]
        rec
  end.

(** The part of the method after the [if]: time since epoch in minutes,
    then the low-level call, whose result is returned as it is. *)
Definition propagate (this : TLE) (thedate : number) : TLE * (error + result) :=
  match satrec this with
  | None => (this, inl TypeError)
  | Some rec =>
      let tsince := mul (sub (jd thedate) (num rec "jdsatepoch")) (of_Z 1440) in
      let '(rec, r) := sgp4 rec tsince in
      (with_satrec this rec, r)
  end.

(** [this.sgp4(thedate, whichconst)]; [whichconst] is [None] when it is
    [undefined].  The result is the object after the call and the value
    returned or the failure thrown. *)
Definition TLE_sgp4 (this : TLE) (thedate : number) (whichconst : option string)
  : TLE * (error + result) :=
  let whichconst :=
    match whichconst with
    | None => "wgs84"
    | Some w => w
    end in
  match satrec this with
  | None =>
      match initialize this whichconst with
      | (rec, inl e) => (with_satrec this rec, inl e)
      | (rec, inr _) => propagate (with_satrec this rec) thedate
      end
  | Some _ => propagate this thedate
  end.




End Sgp4Method.

End Driver.

(** ** The propagator, from the specification *)

Module Sgp4Spec.
Import JS Tle Driver.

Local Open Scope string_scope.

(** Modelled from the spec: the names of the Gravity Model Table
    ([getgravconst] of [sgp4.js], which is not among the sources).  The
    two recognised names are the two historical WGS constant sets; their
    spelling is the one [tle.js] uses. *)
Inductive model : Type :=
| WGS72
| WGS84.

(** Modelled from the spec: [lookup(name)] of the Gravity Model Table,
    which "returns the named constant bundle or fails with an
    unknown-model error". *)
Definition lookup (name : string) : error + model :=
  if String.eqb name "wgs72" then inr WGS72
  else if String.eqb name "wgs84" then inr WGS84
  else inl UnknownModelError.

(** Modelled from the spec: the year each constant set dates from ("the
    newer of the two"). *)
Definition year_of (m : model) : Z :=
  match m with
  | WGS72 => 1972
  | WGS84 => 1984
  end.

(** Modelled from the spec: the state vector, position and velocity. *)
Record StateVector : Type := mkStateVector {
  r : number * number * number;
  v : number * number * number
}.

Definition abs (x : number) : number :=
  if lt x (of_Z 0) then neg x else x.

Definition le (a b : number) : bool := (lt a b || number_eqb a b)%bool.

(** [0 <= e < 1]. *)
Definition in_unit_interval (e : number) : bool :=
  (le (of_Z 0) e && lt e (of_Z 1))%bool.

Definition norm2 (p : number * number * number) : number :=
  let '(x, y, z) := p in add (add (mul x x) (mul y y)) (mul z z).

(** Modelled from the spec: the numerical stages of the propagation step
    ([sgp4.js], not among the sources), left abstract: secular
    (and resonance) update of the mean elements, the first guess and one
    iteration of the solver of Kepler's equation with its tolerance and
    iteration bound, the periodic corrections, the eccentricity of the
    corrected elements, the conversion to Cartesian coordinates, and the
    equatorial radius a record carries. *)
Record Theory : Type := mkTheory {
  elements : Type;
  secular : record -> number -> elements;
  first_guess : elements -> number;
  kepler_iterate : elements -> number -> number;
  tolerance : number;
  iteration_bound : nat;
  periodic : elements -> number -> elements;
  eccentricity : elements -> number;
  cartesian : record -> elements -> StateVector;
  equatorial_radius : record -> number
}.

Section Table.

(** The constant bundle of each model, as the properties it gives a
    record. *)
Variable constants : model -> record.

(** Modelled from the spec: [getgravconst] of [sgp4.js] (not among the
    sources), the table lookup applied to a record: the bundle of a
    recognised name is written into the record, any other name fails with
    the unknown-model error. *)
Definition getgravconst_spec (name : string) (rec : record) : outcome unit :=
  match lookup name with
  | inr m => (constants m ∪ rec, inr tt)
  | inl e => (rec, inl e)
  end.

(** Any set of callees with its [getgravconst] replaced by the table of
    the specification. *)
Definition with_table {result : Type} (E : Externals result) : Externals result :=
  {| getgravconst := getgravconst_spec;
     sgp4init := @sgp4init result E;
     sgp4 := @sgp4 result E;
     jd := @jd result E;
     pow := @pow result E |}.

End Table.

Section Step.

Variable T : Theory.

(** Modelled from the spec: the solver of Kepler's equation, "iteration
    with a bounded iteration count and convergence tolerance"; [None] when
    the bound is reached without convergence. *)
Fixpoint solve_kepler (n : nat) (els : elements T) (E : number) : option number :=
  match n with
  | O => None
  | S n' =>
      let E' := kepler_iterate T els E in
      if lt (abs (sub E' E)) (tolerance T) then Some E'
      else solve_kepler n' els E'
  end.

(** The radius of the position is below the equatorial radius (compared
    by squares). *)
Definition below_surface (rec : record) (sv : StateVector) : bool :=
  lt (norm2 (r sv)) (mul (equatorial_radius T rec) (equatorial_radius T rec)).

(** Modelled from the spec: the Propagation Step ([sgp4] of [sgp4.js], not
    among the sources), stages (1) to (5) of its contract with the three
    degenerate conditions it must detect, each reported as a typed
    failure.  The record is only read. *)
Definition step (rec : record) (tsince : number) : error + StateVector :=
  let els := secular T rec tsince in
  match solve_kepler (iteration_bound T) els (first_guess T els) with
  | None => inl ConvergenceError
  | Some E =>
      let els := periodic T els E in
      if in_unit_interval (eccentricity T els) then
        let sv := cartesian T rec els in
        if below_surface rec sv then inl OrbitDecayedError else inr sv
      else inl OrbitDecayedError
  end.

(** Modelled from the spec: the degenerate conditions of a step. *)
Definition solver_diverges (rec : record) (tsince : number) : Prop :=
  let els := secular T rec tsince in
  solve_kepler (iteration_bound T) els (first_guess T els) = None.

Definition eccentricity_leaves_range (rec : record) (tsince : number) : Prop :=
  let els := secular T rec tsince in
  exists E, solve_kepler (iteration_bound T) els (first_guess T els) = Some E
            /\ in_unit_interval (eccentricity T (periodic T els E)) = false.

Definition radius_below_surface (rec : record) (tsince : number) : Prop :=
  let els := secular T rec tsince in
  exists E, solve_kepler (iteration_bound T) els (first_guess T els) = Some E
            /\ in_unit_interval (eccentricity T (periodic T els E)) = true
            /\ below_surface rec (cartesian T rec (periodic T els E)) = true.

(** The propagator of the specification as the functions the driver
    calls: the table and the step; the initializer, the date conversion
    and the power operator stay those of [E]. *)
Definition spec_externals (constants : model -> record)
    (E : Externals StateVector) : Externals StateVector :=
  {| getgravconst := getgravconst_spec constants;
     sgp4init := @sgp4init _ E;
     sgp4 := fun rec tsince => (rec, step rec tsince);
     jd := @jd _ E;
     pow := @pow _ E |}.

End Step.

End Sgp4Spec.

(** ** Earth orientation parameters: module [eop] *)

Module Eop.
Import JS.

(** [RecordType]: one line of the parameter file. *)
Record RecordType : Type := mkRecord {
  mjd : number;
  xp : number;
  yp : number;
  lod : number;
  dut1 : number
}.

(** The module variable [eop]: [None] while it is [undefined]. *)
Abbreviation table := (option (list RecordType)).

(** [raw()]. *)
Definition raw (eop : table) : table := eop.

(** [get(d)], on the table as it stands; the date is given by its time
    value, which is what [d.valueOf()] returns. *)
Definition get (eop : table) (d : number) : option RecordType :=
  match eop with
  | None => None
  | Some records =>
      let mjd0 := add (div d (of_Z 86400000)) (of_Z 40587) in
      List.find (fun v => ge (mjd v) mjd0) records
  end.

(** The record read from the columns of one line. *)
Definition parse_line (line : string) : RecordType :=
  {| mjd := Number (slice line 7 15);
     xp := Number (slice line 18 27);
     yp := Number (slice line 37 46);
     lod := Number (slice line 79 86);
     dut1 := Number (slice line 58 68) |}.

(** [loadFromString(raw)]: the new value of [eop] and the value returned. *)
Definition loadFromString (raw : string) : table * bool :=
  (Some
     (List.filter (fun v => if ge (mjd v) (of_Z 41684) then true else false)
        (List.map parse_line
           (List.filter
              (fun l => if Nat.ltb 70 (String.length l) then true else false)
              (split_lines raw)))),
   true).

End Eop.

(** ** Quaternions: class [Quaternion] *)

Module Quat.
Import JS.

(** [Vec3] and [Vec4]. *)
Abbreviation Vec3 := (number * number * number)%type.
Abbreviation Vec4 := (number * number * number * number)%type.

Record Quaternion : Type := mkQuaternion { raw : Vec4 }.

(** [a ?? b] on an optional number. *)
Definition nullish (a : option number) (b : number) : number :=
  match a with
  | Some x => x
  | None => b
  end.

(** [new Quaternion(x, y, z, w)]; an argument left out is [None]. *)
Definition new_Quaternion (x y z w : option number) : Quaternion :=
  match x with
  | None => {| raw := (of_Z 0, of_Z 0, of_Z 0, of_Z 1) |}
  | Some _ =>
      {| raw := (nullish x (of_Z 0), nullish y (of_Z 0), nullish z (of_Z 0),
                 nullish w (of_Z 1)) |}
  end.

(** The components [raw[0]] to [raw[3]]. *)
Definition raw0 (q : Quaternion) : number := let '(x, _, _, _) := raw q in x.
Definition raw1 (q : Quaternion) : number := let '(_, y, _, _) := raw q in y.
Definition raw2 (q : Quaternion) : number := let '(_, _, z, _) := raw q in z.
Definition raw3 (q : Quaternion) : number := let '(_, _, _, w) := raw q in w.

(** The static [Quaternion.mult(a, b)]. *)
Definition mult (a b : Quaternion) : Quaternion :=
  new_Quaternion
    (Some (sub (add (add (mul (raw3 b) (raw0 a)) (mul (raw0 b) (raw3 a)))
                    (mul (raw1 b) (raw2 a)))
               (mul (raw2 b) (raw1 a))))
    (Some (add (add (sub (mul (raw3 b) (raw1 a)) (mul (raw0 b) (raw2 a)))
                    (mul (raw1 b) (raw3 a)))
               (mul (raw2 b) (raw0 a))))
    (Some (add (sub (add (mul (raw3 b) (raw2 a)) (mul (raw0 b) (raw1 a)))
                    (mul (raw1 b) (raw0 a)))
               (mul (raw2 b) (raw3 a))))
    (Some (sub (sub (sub (mul (raw3 b) (raw3 a)) (mul (raw0 b) (raw0 a)))
                    (mul (raw1 b) (raw1 a)))
               (mul (raw2 b) (raw2 a)))).

(** The method [this.mult(a)]: the object after the call. *)
Definition mult_in_place (this a : Quaternion) : Quaternion :=
  {| raw :=
       (sub (add (add (mul (raw3 a) (raw0 this)) (mul (raw0 a) (raw3 this)))
                 (mul (raw1 a) (raw2 this)))
            (mul (raw2 a) (raw1 this)),
        add (add (sub (mul (raw3 a) (raw1 this)) (mul (raw0 a) (raw2 this)))
                 (mul (raw1 a) (raw3 this)))
            (mul (raw2 a) (raw0 this)),
        add (sub (add (mul (raw3 a) (raw2 this)) (mul (raw0 a) (raw1 this)))
                 (mul (raw1 a) (raw0 this)))
            (mul (raw2 a) (raw3 this)),
        sub (sub (sub (mul (raw3 a) (raw3 this)) (mul (raw0 a) (raw0 this)))
                 (mul (raw1 a) (raw1 this)))
            (mul (raw2 a) (raw2 this))) |}.

(** [conjugate()] and its alias [conj()]. *)
Definition conjugate (this : Quaternion) : Quaternion :=
  new_Quaternion (Some (neg (raw0 this))) (Some (neg (raw1 this)))
    (Some (neg (raw2 this))) (Some (raw3 this)).

Definition conj (this : Quaternion) : Quaternion := conjugate this.

(** [rotate(v)] and the static [Quaternion.rotate(q, v)]. *)
Definition rotate (this : Quaternion) (v : Vec3) : Vec3 :=
  let '(v0, v1, v2) := v in
  let qv := new_Quaternion (Some v0) (Some v1) (Some v2) (Some (of_Z 0)) in
  let vnew := mult this (mult qv (conj this)) in
  (raw0 vnew, raw1 vnew, raw2 vnew).

Definition rotate_static (q : Quaternion) (v : Vec3) : Vec3 := rotate q v.

(** [Quaternion.identity()]. *)
Definition identity : Quaternion :=
  new_Quaternion (Some (of_Z 0)) (Some (of_Z 0)) (Some (of_Z 0)) (Some (of_Z 1)).

End Quat.

(** ** The validation test: [load_tles] *)

Module Harness.
Import JS Tle.

Local Open Scope string_scope.

(** Everything the constructor decodes from the lines, that is the object
    without [raw] and without the propagation record. *)
Definition decoded_fields (t : TLE) :=
  (name t, satid t, launch_year t, launch_number t, launch_piece t, epoch t,
   mean_motion_dot t, mean_motion_dot_dot t, bstar t, elsetnum t,
   (inclination t, raan t, eccen t, arg_of_perigee t, mean_anomaly t,
    mean_motion t, revnum t)).

(** The variables of [load_tles]: [line1], [line2] and [tles]. *)
Record loader : Type := mkLoader {
  line1 : string;
  line2 : string;
  tles : list TLE
}.

(** [line[0] == '#']; [line[0]] of the empty string is [undefined]. *)
Definition is_comment (line : string) : bool :=
  match line with
  | String c _ => Ascii.eqb c "#"
  | EmptyString => false
  end.

(** The callback of [rawlines.forEach], on line [i] of [n]. *)
Definition visit (n : nat) (st : loader) (i : nat) (line : string)
  : error + loader :=
  if ((is_comment line && negb (String.eqb (line2 st) ""))
      || Nat.eqb i (n - 1))%bool
  then
    let* t := new_TLE (Line (Some (line1 st))) (Some (line2 st)) None in
    inr {| line1 := ""; line2 := ""; tles := tles st ++ [t] |}
  else if is_comment line then inr st
  else if Nat.leb (n - 1) i then inr st
  else if String.eqb (line1 st) ""
  then inr {| line1 := substr line 0 69; line2 := line2 st; tles := tles st |}
  else inr {| line1 := line1 st; line2 := substr line 0 69; tles := tles st |}.

(** [forEach] from index [i] on. *)
Fixpoint each (n i : nat) (lines : list string) (st : loader) : error + loader :=
  match lines with
  | [] => inr st
  | line :: rest =>
      let* st' := visit n st i line in
      each n (S i) rest st'
  end.

(** [load_tles()], on the lines of the file (the file read and split at
    line feeds is the argument). *)
Definition load_tles (rawlines : list string) : error + list TLE :=
  let* st := each (List.length rawlines) 0 rawlines
               {| line1 := ""; line2 := ""; tles := [] |} in
  inr (tles st).

(** A file laid out as the loader expects: element sets, each of two
    lines, each preceded by its comment lines. *)
Definition block : Type := (list string * string * string)%type.

Definition render (b : block) : list string :=
  let '(comments, l1, l2) := b in comments ++ [l1; l2].

(** The element set the loader builds from a block. *)
Definition tle_of_block (b : block) : TLE :=
  let '(_, l1, l2) := b in
  parse_columns [Some (substr l1 0 69); Some (substr l2 0 69)] "unknown"
    (substr l1 0 69) (substr l2 0 69).

Definition element_line (l : string) : Prop :=
  is_comment l = false /\ l <> "".

Definition well_formed (b : block) : Prop :=
  let '(comments, l1, l2) := b in
  Forall (fun c => is_comment c = true) comments
  /\ element_line l1 /\ element_line l2.

(** A block that is not the first starts with at least one comment line. *)
Definition separated (b : block) : Prop :=
  let '(comments, _, _) := b in comments <> [].

End Harness.

(** ** Sample data *)

Module Samples.
Import JS Tle Driver Sgp4Spec.

Local Open Scope string_scope.

(** Element sets in the two-line format: a non-zero second derivative, a
    B-star with a positive exponent sign, a negative B-star, an epoch in
    year 57, and a catalogue number that is not a number. *)
Definition line1_28350 : string :=
  "1 28350U 04020A   06167.21788666  .16154492  76267-5  18678-3 0  8894".
Definition line2_28350 : string :=
  "2 28350  64.9977 345.6130 0024870 260.7578  99.9590 16.47856722116490".
Definition line1_20413 : string :=
  "1 20413U 83020D   05363.79166667  .00000000  00000-0  00000+0 0  7041".
Definition line1_negative_bstar : string :=
  "1 25544U 98067A   20045.18587073  .00000950  00000-0 -11606-4 0  9995".
Definition line1_year57 : string :=
  "1 00001U 57001A   57277.80208333  .00000000  00000-0  00000-0 0  9990".
Definition name_28350 : string := "0 COSMOS 2405".
Definition line1_bad_satid : string :=
  "1 ABCDEU 04020A   06167.21788666  .16154492  76267-5  18678-3 0  8894".

Definition tle_28350 : TLE :=
  parse_columns [Some line1_28350; Some line2_28350] "unknown"
    line1_28350 line2_28350.

(** A small instance of the abstract stages, to run the model on: the
    equatorial radii of the two constant sets in kilometres; elements
    that are one number, the elapsed time, which also serves as
    eccentricity; a solver that has converged after one iteration; a
    position on the x axis at 7000 km. *)
Definition sample_constants (m : model) : record :=
  {[ "radiusearthkm" :=
       VNum (match m with
             | WGS72 => fin (6378135 # 1000)
             | WGS84 => fin (6378137 # 1000)
             end) ]}.

Definition sample_theory : Theory :=
  {| elements := number;
     secular := fun _ tsince => tsince;
     first_guess := fun els => els;
     kepler_iterate := fun _ E => E;
     tolerance := of_Z 1;
     iteration_bound := 10;
     periodic := fun els _ => els;
     eccentricity := fun els => els;
     cartesian := fun _ _ =>
       {| r := (of_Z 7000, of_Z 0, of_Z 0);
          v := (of_Z 0, fin (75 # 10), of_Z 0) |};
     equatorial_radius := fun rec => num rec "radiusearthkm" |}.

(** Julian date of a time value: days since the epoch of the time value
    plus 2440587.5. *)
Definition sample_jd (d : number) : number :=
  add (div d (of_Z 86400000)) (fin (24405875 # 10)).

(** Callees that do nothing, for the parts the specification leaves open. *)
Definition idle_externals : Externals StateVector :=
  {| getgravconst := fun _ rec => (rec, inr tt);
     sgp4init := fun _ rec => (rec, inr tt);
     sgp4 := fun rec _ => (rec, inl TypeError);
     jd := sample_jd;
     pow := fun x _ => x |}.

Definition sample_externals : Externals StateVector :=
  spec_externals sample_theory sample_constants idle_externals.

(** The lines of [line1_28350] and [line2_28350] with another last column
    and text after it, and line 1 with a whole day of year and with noon
    of that day. *)
Definition line1_28350_tail : string :=
  "1 28350U 04020A   06167.21788666  .16154492  76267-5  18678-3 0  8890 tail".
Definition line2_28350_tail : string :=
  "2 28350  64.9977 345.6130 0024870 260.7578  99.9590 16.478567221164907".
Definition line1_whole_day : string :=
  "1 28350U 04020A   06167.00000000  .16154492  76267-5  18678-3 0  8894".
Definition line1_noon : string :=
  "1 28350U 04020A   06167.50000000  .16154492  76267-5  18678-3 0  8894".

(** A record that holds the Julian date of the epoch of [tle_28350]. *)
Definition record_28350 : record :=
  {[ "jdsatepoch" := VNum (sample_jd (epoch tle_28350)) ]}.

(** Three days of Earth orientation parameters. *)
Definition daily_table : list Eop.RecordType :=
  [Eop.mkRecord (of_Z 59000) (fin (1 # 10)) (fin (3 # 10)) (fin (1 # 1000))
     (fin (- 2 # 10));
   Eop.mkRecord (of_Z 59001) (fin (11 # 100)) (fin (31 # 100)) (fin (1 # 1000))
     (fin (- 21 # 100));
   Eop.mkRecord (of_Z 59002) (fin (12 # 100)) (fin (32 # 100)) (fin (1 # 1000))
     (fin (- 22 # 100))].


End Samples.

(** * Properties *)

(** ** Arithmetic of integer-valued numbers *)

Module NumberFacts.
Import JS.

Lemma fin_proper (p q : Q) : (p == q)%Q -> fin p = fin q.
Proof. intros H. unfold fin. f_equal. now apply Qred_complete. Qed.

Lemma add_of_Z (a b : Z) : add (of_Z a) (of_Z b) = of_Z (a + b).
Proof.
  unfold of_Z, add, fin. f_equal. apply Qred_complete.
  rewrite !Qred_correct, inject_Z_plus. reflexivity.
Qed.

Lemma Qle_bool_of_Z (a b : Z) :
  Qle_bool (Qred (inject_Z a)) (Qred (inject_Z b)) = (a <=? b)%Z.
Proof.
  destruct (Z.leb_spec a b) as [H | H].
  - apply Qle_bool_iff. rewrite Qred_le, <- Zle_Qle. exact H.
  - destruct (Qle_bool _ _) eqn:E; [| reflexivity].
    apply Qle_bool_iff in E. rewrite Qred_le in E. rewrite <- Zle_Qle in E. lia.
Qed.

Lemma gt_of_Z (a b : Z) : gt (of_Z a) (of_Z b) = (b <? a)%Z.
Proof.
  unfold gt, of_Z, fin. rewrite Qle_bool_of_Z. symmetry. apply Z.ltb_antisym.
Qed.

Lemma of_Z_inj (a b : Z) : of_Z a = of_Z b -> a = b.
Proof.
  unfold of_Z, fin. intros H. injection H as H.
  apply Qred_eq_iff in H. now apply inject_Z_injective.
Qed.

Lemma add_NaN_l (x : number) : add NaN x = NaN.
Proof. reflexivity. Qed.

Lemma add_NaN_r (x : number) : add x NaN = NaN.
Proof. now destruct x. Qed.

Lemma mul_NaN_l (x : number) : mul NaN x = NaN.
Proof. reflexivity. Qed.

End NumberFacts.

(** ** The parser *)

Module TleFacts.
Import JS Tle NumberFacts Samples.

Local Open Scope string_scope.

(** Both year rules on an integer year. *)
Lemma resolve_launch_year_of_Z (y : Z) :
  resolve_launch_year (of_Z y)
  = of_Z (if (50 <? y)%Z then y + 1900 else y + 2000).
Proof.
  unfold resolve_launch_year. rewrite gt_of_Z.
  destruct (50 <? y)%Z; apply add_of_Z.
Qed.

Lemma resolve_epoch_year_of_Z (y : Z) :
  resolve_epoch_year (of_Z y)
  = of_Z (if (57 <? y)%Z then y + 1900 else y + 2000).
Proof.
  unfold resolve_epoch_year. rewrite gt_of_Z.
  destruct (57 <? y)%Z; apply add_of_Z.
Qed.

(** The constructor on two lines given as an array. *)
Lemma new_TLE_two_lines (line1 line2 : string) :
  new_TLE (Arr [Some line1; Some line2]) None None
  = inr (parse_columns [Some line1; Some line2] "unknown" line1 line2).
Proof. reflexivity. Qed.

(** C9. The two-digit launch year of line 1 (columns 9 and 10) resolves to
    the 1900s when it is strictly greater than 50 and to the 2000s when it
    is 50 or below; the pivot differs from the one of the epoch year: 55
    is 1955 as a launch year and 2055 as an epoch year. *)
Theorem launch_year_pivot (line1 line2 : string) (y : Z) :
  Number (substr line1 9 2) = of_Z y ->
  exists t,
    new_TLE (Arr [Some line1; Some line2]) None None = inr t
    /\ launch_year t = of_Z (if (50 <? y)%Z then 1900 + y else 2000 + y)
    /\ resolve_launch_year (of_Z 55) = of_Z 1955
    /\ resolve_epoch_year (of_Z 55) = of_Z 2055.
Proof.
  intros Hy. eexists. split; [apply new_TLE_two_lines |].
  cbn [launch_year parse_columns]. rewrite Hy, resolve_launch_year_of_Z.
  repeat split.
  destruct (50 <? y)%Z; f_equal; lia.
Qed.

Lemma launch_year_pivot_witness :
  exists t,
    new_TLE (Arr [Some line1_28350; Some line2_28350]) None None = inr t
    /\ launch_year t = of_Z (if (50 <? 4)%Z then 1900 + 4 else 2000 + 4)
    /\ resolve_launch_year (of_Z 55) = of_Z 1955
    /\ resolve_epoch_year (of_Z 55) = of_Z 2055.
Proof. apply (launch_year_pivot line1_28350 line2_28350 4). reflexivity. Defined.

(** The constructor on three lines given as an array: the stored name
    loses a leading ["0"] marker and the column after it. *)
Lemma new_TLE_three_lines (name0 line1 line2 : string) :
  new_TLE (Arr [Some name0; Some line1; Some line2]) None None
  = inr (parse_columns [Some name0; Some line1; Some line2]
           (if String.eqb (substring name0 0 1) "0"
            then substring_from name0 2 else name0)
           line1 line2).
Proof. reflexivity. Qed.

(** Lines given as separate arguments: the third is never looked at. *)
Lemma new_TLE_separate_lines (a b c : option string) :
  new_TLE (Line a) b c = new_TLE (Arr [a; b]) None None.
Proof. reflexivity. Qed.

(** A line that is [undefined] makes the constructor throw. *)
Lemma new_TLE_missing_line (line1 : string) :
  new_TLE (Line (Some line1)) None None = inl TypeError.
Proof. reflexivity. Qed.

(** On integer years other than 57 the epoch rule of the constructor is
    the one of the convention. *)
Lemma epoch_year_agrees_off_pivot (y : Z) :
  y <> 57%Z ->
  resolve_epoch_year (of_Z y) = of_Z (convention_epoch_year y).
Proof.
  intros Hy. rewrite resolve_epoch_year_of_Z. unfold convention_epoch_year.
  destruct (Z.ltb_spec 57 y), (Z.leb_spec 57 y); f_equal; lia.
Qed.

(** *** The epoch as a function of its two columns *)

Lemma Qred_inject_Z (z : Z) : Qred (inject_Z z) = inject_Z z.
Proof. apply Qred_identity. cbn. apply Z.gcd_1_r. Qed.

Lemma trunc_of_Z (z : Z) : trunc (Qred (inject_Z z)) = z.
Proof. rewrite Qred_inject_Z. unfold trunc. cbn. apply Z.quot_1_r. Qed.

Lemma TimeClip_of_Z (z : Z) :
  (Z.abs z <= 8640000000000000)%Z -> TimeClip (of_Z z) = of_Z z.
Proof.
  intros H. unfold TimeClip, of_Z, fin. rewrite trunc_of_Z, Qred_inject_Z.
  replace (Qle_bool _ _) with true; [reflexivity |].
  symmetry. apply Qle_bool_iff. change (Qabs (inject_Z z)) with (inject_Z (Z.abs z)).
  now rewrite <- Zle_Qle.
Qed.

Lemma DayFromYear_bound (y : Z) :
  (1900 <= y <= 2100)%Z -> (Z.abs (DayFromYear y * msPerDay) <= 8640000000000000)%Z.
Proof.
  intros H. unfold DayFromYear, msPerDay. Z.div_mod_to_equations. lia.
Qed.

Lemma Date_UTC_of_Z (y : Z) :
  (1900 <= y <= 2100)%Z -> Date_UTC (of_Z y) = of_Z (DayFromYear y * msPerDay).
Proof.
  intros H. unfold Date_UTC, of_Z at 1, fin. rewrite trunc_of_Z.
  replace ((0 <=? y) && (y <=? 99))%Z with false by lia.
  now apply TimeClip_of_Z, DayFromYear_bound.
Qed.

(** With a two-digit year [y] and a day of year [d], the epoch is midnight
    UTC of January 1st of the resolved year advanced by [d - 1] days (day
    1.0 is January 1st, 00:00), cut to whole milliseconds; the advance is
    computed exactly (see [decode_epoch]). *)
Lemma decode_epoch_of_fields (line1 : string) (y : Z) (d : Q) :
  Number (substr line1 18 2) = of_Z y ->
  (0 <= y <= 99)%Z ->
  Number (substr line1 20 12) = Fin d ->
  decode_epoch line1
  = TimeClip
      (fin (inject_Z (DayFromYear (if (57 <? y)%Z then y + 1900 else y + 2000)
                      * msPerDay)
            + (d - 1) * 86400000)).
Proof.
  intros Hy Hrange Hd. unfold decode_epoch. rewrite Hy, Hd, resolve_epoch_year_of_Z.
  set (Y := if (57 <? y)%Z then (y + 1900)%Z else (y + 2000)%Z).
  assert (HY : (1900 <= Y <= 2100)%Z) by (unfold Y; destruct (57 <? y)%Z; lia).
  rewrite (Date_UTC_of_Z Y HY). unfold new_Date, getTime, setTime.
  rewrite (TimeClip_of_Z _ (DayFromYear_bound Y HY)). f_equal.
  unfold sub, neg, mul, add, of_Z, fin. f_equal. apply Qred_complete.
  rewrite !Qred_correct. unfold inject_Z. ring.
Qed.

(** *** Decimal exponent fields, digit by digit *)

Lemma take_digits_digit (c : ascii) (v : Z) (r : list ascii) :
  digit_of c = Some v ->
  take_digits (c :: r) = (v :: fst (take_digits r), snd (take_digits r)).
Proof. intros H. cbn [take_digits]. rewrite H. now destruct (take_digits r). Qed.

Lemma take_digits_stop (c : ascii) (r : list ascii) :
  digit_of c = None -> take_digits (c :: r) = ([], c :: r).
Proof. intros H. cbn [take_digits]. now rewrite H. Qed.

Lemma digit_is_not_space (c : ascii) (v : Z) :
  digit_of c = Some v -> is_space c = false.
Proof.
  destruct c as [[] [] [] [] [] [] [] []]; vm_compute; intros H;
    first [reflexivity | discriminate H].
Qed.

Lemma digit_differs (c k : ascii) (v : Z) :
  digit_of c = Some v -> digit_of k = None -> Ascii.eqb c k = false.
Proof.
  intros Hc Hk. destruct (Ascii.eqb_spec c k) as [-> | _]; [congruence | reflexivity].
Qed.

Lemma substr_tail (s : string) (n m : nat) (c : ascii) (r : string) :
  substr s n (S m) = String c r -> substr s (S n) m = r.
Proof.
  unfold substr. revert s. induction n as [| n IH]; intros [| c' s'] H;
    try discriminate H.
  - cbn in H. injection H as _ H. cbn. destruct m; exact H.
  - cbn in H. apply IH in H. exact H.
Qed.

(** [Number] on a trimmed text of at least two characters whose second
    character introduces no radix. *)
Lemma Number_decimal (s : string) (c1 c2 : ascii) (r : list ascii) :
  trim (list_ascii_of_string s) = c1 :: c2 :: r ->
  digit_of c2 <> None \/ c2 = "."%char ->
  Number s = decimal_literal (c1 :: c2 :: r).
Proof.
  intros Ht Hc2. unfold Number. rewrite Ht.
  assert (Hx : forall k, digit_of k = None -> k <> "."%char -> Ascii.eqb c2 k = false).
  { intros k Hk Hdot. destruct (Ascii.eqb_spec c2 k) as [-> | _]; [| reflexivity].
    destruct Hc2; congruence. }
  destruct c1 as [[] [] [] [] [] [] [] []]; try reflexivity.
  rewrite !Hx by (vm_compute; congruence). reflexivity.
Qed.

Lemma digits_value_zero (ds : list Z) : digits_value 10 (0%Z :: ds) = digits_value 10 ds.
Proof. reflexivity. Qed.

Lemma drop_space_keep (c : ascii) (r : list ascii) :
  is_space c = false -> drop_space (c :: r) = c :: r.
Proof. intros H. cbn [drop_space]. now rewrite H. Qed.

Lemma append_implied_point (s : string) : "0." ++ s = String "0" (String "." s).
Proof. reflexivity. Qed.

Section Field.
Variables (d1 d2 d3 d4 d5 e : ascii) (v1 v2 v3 v4 v5 x : Z).
Hypothesis H1 : digit_of d1 = Some v1.
Hypothesis H2 : digit_of d2 = Some v2.
Hypothesis H3 : digit_of d3 = Some v3.
Hypothesis H4 : digit_of d4 = Some v4.
Hypothesis H5 : digit_of d5 = Some v5.
Hypothesis He : digit_of e = Some x.

Lemma replace_minus_exponent :
  replace (string_of_list_ascii [d1; d2; d3; d4; d5; "-"%char; e]) "-" "E-"
  = string_of_list_ascii [d1; d2; d3; d4; d5; "E"%char; "-"%char; e].
Proof.
  cbn [string_of_list_ascii replace].
  rewrite (digit_differs d1 "-" v1 H1), (digit_differs d2 "-" v2 H2),
    (digit_differs d3 "-" v3 H3), (digit_differs d4 "-" v4 H4),
    (digit_differs d5 "-" v5 H5) by reflexivity.
  reflexivity.
Qed.

Lemma Number_with_implied_point :
  Number ("0." ++ string_of_list_ascii [d1; d2; d3; d4; d5; "E"%char; "-"%char; e])
  = scale10 (digits_value 10 [v1; v2; v3; v4; v5]) (- x - 5).
Proof.
  rewrite (Number_decimal _ "0" "."
             [d1; d2; d3; d4; d5; "E"%char; "-"%char; e]).
  - unfold decimal_literal. cbn [take_sign].
    replace (String.eqb _ "Infinity") with false by reflexivity.
    rewrite (take_digits_digit "0" 0) by reflexivity.
    rewrite (take_digits_stop ".") by reflexivity. cbn [fst snd].
    rewrite (take_digits_digit d1 v1), (take_digits_digit d2 v2),
      (take_digits_digit d3 v3), (take_digits_digit d4 v4),
      (take_digits_digit d5 v5), (take_digits_stop "E")
      by (assumption || reflexivity).
    cbn [fst snd is_nil andb]. change (is_e "E") with true. cbn [take_sign].
    rewrite (take_digits_digit e x) by assumption.
    cbn [take_digits fst snd is_nil orb negb].
    f_equal; unfold digits_value; cbn [app fold_left List.length]; lia.
  - unfold trim. rewrite append_implied_point.
    cbn [string_of_list_ascii list_ascii_of_string].
    rewrite drop_space_keep by reflexivity. cbn [rev app].
    now rewrite drop_space_keep by apply (digit_is_not_space e x He).
  - now right.
Qed.

Lemma Number_without_implied_point :
  Number (string_of_list_ascii [d1; d2; d3; d4; d5; "E"%char; "-"%char; e])
  = scale10 (digits_value 10 [v1; v2; v3; v4; v5]) (- x).
Proof.
  rewrite (Number_decimal _ d1 d2 [d3; d4; d5; "E"%char; "-"%char; e]).
  - unfold decimal_literal.
    assert (Hsign : take_sign [d1; d2; d3; d4; d5; "E"%char; "-"%char; e]
                    = (1%Z, [d1; d2; d3; d4; d5; "E"%char; "-"%char; e])).
    { unfold take_sign.
      destruct (Ascii.eqb_spec d1 "+") as [-> | Hp]; [discriminate H1 |].
      destruct (Ascii.eqb_spec d1 "-") as [-> | Hm]; [discriminate H1 |].
      destruct d1 as [[] [] [] [] [] [] [] []]; try reflexivity; congruence. }
    rewrite Hsign.
    assert (Hinf : String.eqb (string_of_list_ascii
                     [d1; d2; d3; d4; d5; "E"%char; "-"%char; e]) "Infinity" = false).
    { cbn [string_of_list_ascii String.eqb].
      now rewrite (digit_differs d1 "I" v1 H1). }
    rewrite Hinf.
    rewrite (take_digits_digit d1 v1), (take_digits_digit d2 v2),
      (take_digits_digit d3 v3), (take_digits_digit d4 v4),
      (take_digits_digit d5 v5), (take_digits_stop "E")
      by (assumption || reflexivity).
    cbn [fst snd is_nil andb]. change (is_e "E") with true. cbn [take_sign].
    rewrite (take_digits_digit e x) by assumption.
    cbn [take_digits fst snd is_nil orb negb].
    f_equal; unfold digits_value; cbn [app fold_left List.length]; lia.
  - unfold trim. cbn [string_of_list_ascii list_ascii_of_string].
    rewrite drop_space_keep by apply (digit_is_not_space d1 v1 H1). cbn [rev app].
    now rewrite drop_space_keep by apply (digit_is_not_space e x He).
  - left. congruence.
Qed.




Lemma implied_decimal_of_digits (s : ascii) (sg : Z) :
  (if Ascii.eqb s "-" then Some (-1)%Z
   else if (Ascii.eqb s " " || Ascii.eqb s "+")%bool then Some 1%Z else None)
  = Some sg ->
  implied_decimal (string_of_list_ascii [s; d1; d2; d3; d4; d5; "-"%char; e])
  = scale10 (sg * digits_value 10 [v1; v2; v3; v4; v5]) (- x - 5).
Proof.
  intros Hs. unfold implied_decimal.
  cbn [string_of_list_ascii list_ascii_of_string]. rewrite Hs.
  rewrite (take_digits_digit d1 v1), (take_digits_digit d2 v2),
    (take_digits_digit d3 v3), (take_digits_digit d4 v4),
    (take_digits_digit d5 v5) by assumption.
  cbn [take_digits fst snd]. rewrite He.
  change (Ascii.eqb "-" "-") with true. cbv iota. f_equal; lia.
Qed.

End Field.

Lemma substr_head (s : string) (n m : nat) (c : ascii) (r : string) :
  substr s n (S m) = String c r -> substr s n 1 = String c "".
Proof.
  unfold substr. revert s. induction n as [| n IH]; intros [| c' s'] H;
    try discriminate H.
  - cbn in H. injection H as -> _. cbn. now destruct s'.
  - cbn in H. now apply IH in H.
Qed.

Lemma scale10_shift (m k : Z) :
  mul (of_Z 100000) (scale10 m (k - 5)) = scale10 m k.
Proof.
  unfold mul, of_Z, scale10, fin. f_equal. apply Qred_complete.
  rewrite !Qred_correct.
  replace k with ((k - 5) + 5)%Z at 2 by lia.
  rewrite Qpower_plus by discriminate.
  change ((10 # 1) ^ 5)%Q with (100000 # 1)%Q. unfold inject_Z. ring.
Qed.

Lemma neg_scale10 (m k : Z) : neg (scale10 m k) = scale10 (- m) k.
Proof.
  unfold neg, scale10, fin. f_equal. apply Qred_complete.
  rewrite !Qred_correct, inject_Z_opp. ring.
Qed.

(** B-star does not depend on its sign column. *)
Lemma decode_bstar_magnitude (line1 : string)
    (s d1 d2 d3 d4 d5 e : ascii) (v1 v2 v3 v4 v5 x : Z) :
  substr line1 53 8
  = string_of_list_ascii [s; d1; d2; d3; d4; d5; "-"%char; e] ->
  digit_of d1 = Some v1 -> digit_of d2 = Some v2 -> digit_of d3 = Some v3 ->
  digit_of d4 = Some v4 -> digit_of d5 = Some v5 -> digit_of e = Some x ->
  decode_bstar line1 = scale10 (digits_value 10 [v1; v2; v3; v4; v5]) (- x - 5).
Proof.
  intros Hf H1 H2 H3 H4 H5 He. unfold decode_bstar.
  rewrite (substr_tail _ _ _ _ _ Hf).
  change (String d1 (String d2 (String d3 (String d4 (String d5
            (String "-" (String e "")))))))
    with (string_of_list_ascii [d1; d2; d3; d4; d5; "-"%char; e]).
  rewrite (replace_minus_exponent d1 d2 d3 d4 d5 e v1 v2 v3 v4 v5) by assumption.
  now apply Number_with_implied_point.
Qed.

(** B-star with a blank sign column and a minus exponent sign is the
    value of the convention. *)
Lemma decode_bstar_blank_sign (line1 : string)
    (d1 d2 d3 d4 d5 e : ascii) (v1 v2 v3 v4 v5 x : Z) :
  substr line1 53 8
  = string_of_list_ascii [" "%char; d1; d2; d3; d4; d5; "-"%char; e] ->
  digit_of d1 = Some v1 -> digit_of d2 = Some v2 -> digit_of d3 = Some v3 ->
  digit_of d4 = Some v4 -> digit_of d5 = Some v5 -> digit_of e = Some x ->
  decode_bstar line1 = implied_decimal (substr line1 53 8).
Proof.
  intros Hf H1 H2 H3 H4 H5 He.
  rewrite (decode_bstar_magnitude line1 " " d1 d2 d3 d4 d5 e v1 v2 v3 v4 v5 x)
    by assumption.
  rewrite Hf.
  rewrite (implied_decimal_of_digits d1 d2 d3 d4 d5 e v1 v2 v3 v4 v5 x
             H1 H2 H3 H4 H5 He " " 1) by reflexivity.
  f_equal; lia.
Qed.

(** With a minus in the sign column B-star is the opposite of the value of
    the convention. *)
Lemma decode_bstar_minus_sign (line1 : string)
    (d1 d2 d3 d4 d5 e : ascii) (v1 v2 v3 v4 v5 x : Z) :
  substr line1 53 8
  = string_of_list_ascii ["-"%char; d1; d2; d3; d4; d5; "-"%char; e] ->
  digit_of d1 = Some v1 -> digit_of d2 = Some v2 -> digit_of d3 = Some v3 ->
  digit_of d4 = Some v4 -> digit_of d5 = Some v5 -> digit_of e = Some x ->
  decode_bstar line1 = neg (implied_decimal (substr line1 53 8)).
Proof.
  intros Hf H1 H2 H3 H4 H5 He.
  rewrite (decode_bstar_magnitude line1 "-" d1 d2 d3 d4 d5 e v1 v2 v3 v4 v5 x)
    by assumption.
  rewrite Hf.
  rewrite (implied_decimal_of_digits d1 d2 d3 d4 d5 e v1 v2 v3 v4 v5 x
             H1 H2 H3 H4 H5 He "-" (-1)) by reflexivity.
  rewrite neg_scale10. f_equal; lia.
Qed.

Section PlusExponent.
Variables (d1 d2 d3 d4 d5 e : ascii) (v1 v2 v3 v4 v5 x : Z).
Hypothesis H1 : digit_of d1 = Some v1.
Hypothesis H2 : digit_of d2 = Some v2.
Hypothesis H3 : digit_of d3 = Some v3.
Hypothesis H4 : digit_of d4 = Some v4.
Hypothesis H5 : digit_of d5 = Some v5.
Hypothesis He : digit_of e = Some x.

Lemma replace_plus_exponent :
  replace (string_of_list_ascii [d1; d2; d3; d4; d5; "+"%char; e]) "-" "E-"
  = string_of_list_ascii [d1; d2; d3; d4; d5; "+"%char; e].
Proof.
  cbn [string_of_list_ascii replace].
  rewrite (digit_differs d1 "-" v1 H1), (digit_differs d2 "-" v2 H2),
    (digit_differs d3 "-" v3 H3), (digit_differs d4 "-" v4 H4),
    (digit_differs d5 "-" v5 H5), (digit_differs e "-" x He) by reflexivity.
  reflexivity.
Qed.

Lemma Number_plus_exponent_with_point :
  Number ("0." ++ string_of_list_ascii [d1; d2; d3; d4; d5; "+"%char; e]) = NaN.
Proof.
  rewrite (Number_decimal _ "0" "." [d1; d2; d3; d4; d5; "+"%char; e]).
  - unfold decimal_literal. cbn [take_sign].
    replace (String.eqb _ "Infinity") with false by reflexivity.
    rewrite (take_digits_digit "0" 0) by reflexivity.
    rewrite (take_digits_stop ".") by reflexivity. cbn [fst snd].
    rewrite (take_digits_digit d1 v1), (take_digits_digit d2 v2),
      (take_digits_digit d3 v3), (take_digits_digit d4 v4),
      (take_digits_digit d5 v5), (take_digits_stop "+")
      by (assumption || reflexivity).
    reflexivity.
  - unfold trim. rewrite append_implied_point.
    cbn [string_of_list_ascii list_ascii_of_string].
    rewrite drop_space_keep by reflexivity. cbn [rev app].
    now rewrite drop_space_keep by apply (digit_is_not_space e x He).
  - now right.
Qed.

Lemma Number_plus_exponent_without_point :
  Number (string_of_list_ascii [d1; d2; d3; d4; d5; "+"%char; e]) = NaN.
Proof.
  rewrite (Number_decimal _ d1 d2 [d3; d4; d5; "+"%char; e]).
  - unfold decimal_literal.
    assert (Hsign : take_sign [d1; d2; d3; d4; d5; "+"%char; e]
                    = (1%Z, [d1; d2; d3; d4; d5; "+"%char; e])).
    { unfold take_sign.
      destruct (Ascii.eqb_spec d1 "+") as [-> | Hp]; [discriminate H1 |].
      destruct (Ascii.eqb_spec d1 "-") as [-> | Hm]; [discriminate H1 |].
      destruct d1 as [[] [] [] [] [] [] [] []]; try reflexivity; congruence. }
    rewrite Hsign.
    assert (Hinf : String.eqb (string_of_list_ascii
                     [d1; d2; d3; d4; d5; "+"%char; e]) "Infinity" = false).
    { cbn [string_of_list_ascii String.eqb].
      now rewrite (digit_differs d1 "I" v1 H1). }
    rewrite Hinf.
    rewrite (take_digits_digit d1 v1), (take_digits_digit d2 v2),
      (take_digits_digit d3 v3), (take_digits_digit d4 v4),
      (take_digits_digit d5 v5), (take_digits_stop "+")
      by (assumption || reflexivity).
    reflexivity.
  - unfold trim. cbn [string_of_list_ascii list_ascii_of_string].
    rewrite drop_space_keep by apply (digit_is_not_space d1 v1 H1). cbn [rev app].
    now rewrite drop_space_keep by apply (digit_is_not_space e x He).
  - left. congruence.
Qed.

End PlusExponent.

(** Either field with exponent sign [+] is not a number. *)
Lemma decode_plus_exponent (line1 : string)
    (s d1 d2 d3 d4 d5 e : ascii) (v1 v2 v3 v4 v5 x : Z) :
  digit_of d1 = Some v1 -> digit_of d2 = Some v2 -> digit_of d3 = Some v3 ->
  digit_of d4 = Some v4 -> digit_of d5 = Some v5 -> digit_of e = Some x ->
  (substr line1 53 8
   = string_of_list_ascii [s; d1; d2; d3; d4; d5; "+"%char; e] ->
   decode_bstar line1 = NaN)
  /\ (substr line1 44 8
      = string_of_list_ascii [s; d1; d2; d3; d4; d5; "+"%char; e] ->
      decode_mean_motion_dot_dot line1 = NaN).
Proof.
  intros H1 H2 H3 H4 H5 He. split; intros Hf.
  - unfold decode_bstar. rewrite (substr_tail _ _ _ _ _ Hf).
    change (String d1 (String d2 (String d3 (String d4 (String d5
              (String "+" (String e "")))))))
      with (string_of_list_ascii [d1; d2; d3; d4; d5; "+"%char; e]).
    rewrite (replace_plus_exponent d1 d2 d3 d4 d5 e v1 v2 v3 v4 v5 x)
      by assumption.
    now apply (Number_plus_exponent_with_point d1 d2 d3 d4 d5 e v1 v2 v3 v4 v5 x).
  - unfold decode_mean_motion_dot_dot. rewrite (substr_tail _ _ _ _ _ Hf).
    change (String d1 (String d2 (String d3 (String d4 (String d5
              (String "+" (String e "")))))))
      with (string_of_list_ascii [d1; d2; d3; d4; d5; "+"%char; e]).
    rewrite (replace_plus_exponent d1 d2 d3 d4 d5 e v1 v2 v3 v4 v5 x)
      by assumption.
    rewrite (Number_plus_exponent_without_point d1 d2 d3 d4 d5 e v1 v2 v3 v4 v5 x)
      by assumption.
    now destruct (String.eqb _ _).
Qed.

(** The second derivative of mean motion with a minus exponent sign is
    100000 times the value of the convention. *)
Lemma decode_mean_motion_dot_dot_scaled (line1 : string)
    (s d1 d2 d3 d4 d5 e : ascii) (v1 v2 v3 v4 v5 x : Z) :
  substr line1 44 8
  = string_of_list_ascii [s; d1; d2; d3; d4; d5; "-"%char; e] ->
  s = " "%char \/ s = "+"%char \/ s = "-"%char ->
  digit_of d1 = Some v1 -> digit_of d2 = Some v2 -> digit_of d3 = Some v3 ->
  digit_of d4 = Some v4 -> digit_of d5 = Some v5 -> digit_of e = Some x ->
  decode_mean_motion_dot_dot line1
  = mul (of_Z 100000) (implied_decimal (substr line1 44 8)).
Proof.
  intros Hf Hs H1 H2 H3 H4 H5 He. unfold decode_mean_motion_dot_dot.
  rewrite (substr_tail _ _ _ _ _ Hf), (substr_head _ _ _ _ _ Hf), Hf.
  change (String d1 (String d2 (String d3 (String d4 (String d5
            (String "-" (String e "")))))))
    with (string_of_list_ascii [d1; d2; d3; d4; d5; "-"%char; e]).
  rewrite (replace_minus_exponent d1 d2 d3 d4 d5 e v1 v2 v3 v4 v5) by assumption.
  rewrite (Number_without_implied_point d1 d2 d3 d4 d5 e v1 v2 v3 v4 v5 x)
    by assumption.
  destruct Hs as [-> | [-> | ->]].
  - rewrite (implied_decimal_of_digits d1 d2 d3 d4 d5 e v1 v2 v3 v4 v5 x
               H1 H2 H3 H4 H5 He " " 1) by reflexivity.
    change (String.eqb (String " " "") "-") with false. cbv iota.
    rewrite scale10_shift. f_equal; lia.
  - rewrite (implied_decimal_of_digits d1 d2 d3 d4 d5 e v1 v2 v3 v4 v5 x
               H1 H2 H3 H4 H5 He "+" 1) by reflexivity.
    change (String.eqb (String "+" "") "-") with false. cbv iota.
    rewrite scale10_shift. f_equal; lia.
  - rewrite (implied_decimal_of_digits d1 d2 d3 d4 d5 e v1 v2 v3 v4 v5 x
               H1 H2 H3 H4 H5 He "-" (-1)) by reflexivity.
    change (String.eqb (String "-" "") "-") with true. cbv iota.
    rewrite scale10_shift, neg_scale10. f_equal; lia.
Qed.

(** C1. At sample element sets the decimal exponent fields are not the
    value [sign * 0.ddddd * 10 ^ exponent] of the convention: the second
    derivative of mean motion is read without the implied ["0."]
    (0.76267 for [76267-5], not 0.0000076267), a B-star with exponent sign
    [+] is not a number, and the sign column of B-star is not read. *)
Theorem exponent_fields_at_reference_lines :
  substr line1_28350 44 8 = " 76267-5"
  /\ decode_mean_motion_dot_dot line1_28350 = Fin (76267 # 100000)
  /\ implied_decimal (substr line1_28350 44 8) = Fin (76267 # 10000000000)
  /\ substr line1_20413 53 8 = " 00000+0"
  /\ decode_bstar line1_20413 = NaN
  /\ implied_decimal (substr line1_20413 53 8) = Fin 0
  /\ substr line1_negative_bstar 53 8 = "-11606-4"
  /\ decode_bstar line1_negative_bstar = Fin (5803 # 500000000)
  /\ implied_decimal (substr line1_negative_bstar 53 8) = Fin (-5803 # 500000000).
Proof. repeat split; vm_compute; reflexivity. Qed.

(** Where the sign column is blank and the exponent sign is [-], B-star is
    the value of the convention. *)
Example bstar_at_28350 :
  decode_bstar line1_28350 = implied_decimal (substr line1_28350 53 8)
  /\ decode_bstar line1_28350 = Fin (9339 # 50000000).
Proof. split; vm_compute; reflexivity. Qed.

(** C2. An epoch year field of 57 resolves to 2057, where the convention
    (years 57 and later are in the 1900s) gives 1957; the epoch of the
    element set is then in October 2057. *)
Theorem epoch_year_57_resolves_to_2057 :
  Number (substr line1_year57 18 2) = of_Z 57
  /\ resolve_epoch_year (of_Z 57) = of_Z 2057
  /\ convention_epoch_year 57 = 1957%Z
  /\ Date_UTC (of_Z 2057) = of_Z 2745532800000
  /\ Date_UTC (of_Z 1957) = of_Z (-410227200000)
  /\ exists t,
       new_TLE (Arr [Some line1_year57; Some line2_28350]) None None = inr t
       /\ epoch t = of_Z 2769448499999.
Proof.
  repeat split; try (vm_compute; reflexivity).
  eexists. split; [apply new_TLE_two_lines |]. vm_compute. reflexivity.
Qed.

(** C7. The same three lines given as separate arguments and as one array
    do not give the same element set: with separate arguments the third
    line is dropped, the name line is decoded as line 1 and line 1 as
    line 2. *)
Theorem three_separate_lines_lose_the_third :
  new_TLE (Line (Some name_28350)) (Some line1_28350) (Some line2_28350)
  = inr (parse_columns [Some name_28350; Some line1_28350] "unknown"
           name_28350 line1_28350)
  /\ new_TLE (Arr [Some name_28350; Some line1_28350; Some line2_28350]) None None
     = inr (parse_columns [Some name_28350; Some line1_28350; Some line2_28350]
              "COSMOS 2405" line1_28350 line2_28350)
  /\ satid (parse_columns [Some name_28350; Some line1_28350] "unknown"
              name_28350 line1_28350) = NaN
  /\ satid (parse_columns [Some name_28350; Some line1_28350; Some line2_28350]
              "COSMOS 2405" line1_28350 line2_28350) = of_Z 28350
  /\ new_TLE (Line (Some name_28350)) (Some line1_28350) (Some line2_28350)
     <> new_TLE (Arr [Some name_28350; Some line1_28350; Some line2_28350])
          None None.
Proof.
  repeat split; try (vm_compute; reflexivity).
  rewrite new_TLE_separate_lines, new_TLE_two_lines, new_TLE_three_lines.
  intros H.
  apply (f_equal (fun r => match r with inr t => name t | inl _ => "" end)) in H.
  vm_compute in H. discriminate H.
Qed.

(** The claim of C3, that malformed columns make parsing fail, does not
    hold: a line whose catalogue number is [ABCDE] is parsed. *)
Lemma malformed_lines_are_parsed :
  ~ (forall line1 line2,
        unreadable line1 line2 ->
        exists e, new_TLE (Arr [Some line1; Some line2]) None None = inl e).
Proof.
  intros H. destruct (H line1_bad_satid line2_28350) as [e He].
  - left. exists "ABCDE", satid. split; [left; reflexivity | reflexivity].
  - rewrite new_TLE_two_lines in He. discriminate He.
Qed.

Lemma resolve_launch_year_NaN (y : number) :
  resolve_launch_year y = NaN <-> y = NaN.
Proof.
  unfold resolve_launch_year.
  destruct y as [| | | q];
    try (split; intros H; (discriminate H || reflexivity)).
  unfold gt, of_Z, fin. destruct (negb _); unfold add; split; discriminate.
Qed.

Lemma neg_NaN (v : number) : neg v = NaN <-> v = NaN.
Proof. destruct v; unfold neg, fin; split; intros H; (discriminate H || reflexivity). Qed.

Lemma decode_mean_motion_dot_dot_NaN (line1 : string) :
  decode_mean_motion_dot_dot line1 = NaN
  <-> Number (replace (substr line1 45 7) "-" "E-") = NaN.
Proof.
  unfold decode_mean_motion_dot_dot.
  destruct (String.eqb _ _); [apply neg_NaN | reflexivity].
Qed.

Lemma decode_epoch_NaN_year (line1 : string) :
  Number (substr line1 18 2) = NaN -> decode_epoch line1 = NaN.
Proof. intros H. unfold decode_epoch. rewrite H. reflexivity. Qed.

Lemma decode_epoch_NaN_day (line1 : string) :
  Number (substr line1 20 12) = NaN -> decode_epoch line1 = NaN.
Proof.
  intros H. unfold decode_epoch, setTime. rewrite H.
  change (mul (mul (sub NaN (of_Z 1)) (of_Z 86400)) (of_Z 1000)) with NaN.
  now rewrite add_NaN_r.
Qed.

(** C3, amended.  Parsing text lines never signals a failure, whatever
    the columns hold: two lines and three lines (as an array or as
    separate arguments) always give an element set, with no record yet, so
    a propagation call would initialise.  No column is checked: each
    numeric property is NaN exactly when [Number] cannot read the text it
    was handed, and a number otherwise, also where the text is not of the
    form the column requires (a blank catalogue number is 0, [0x1F] is
    31); the epoch is NaN whenever the year or the day cannot be read.
    What makes the constructor throw is a missing line. *)
Theorem parsing_never_fails (line1 line2 : string) :
  exists t,
    new_TLE (Arr [Some line1; Some line2]) None None = inr t
    /\ new_TLE (Line (Some line1)) (Some line2) None = inr t
    /\ (forall name0, exists t3,
          new_TLE (Arr [Some name0; Some line1; Some line2]) None None = inr t3
          /\ Forall (fun '(_, field) => field t3 = field t)
               (number_texts line1 line2)
          /\ epoch t3 = epoch t)
    /\ (forall name0, exists t3,
          new_TLE (Line (Some name0)) (Some line1) (Some line2) = inr t3)
    /\ satrec t = None
    /\ Forall (fun '(text, field) => field t = NaN <-> Number text = NaN)
         (number_texts line1 line2)
    /\ Forall (fun text => Number text = NaN -> epoch t = NaN)
         (epoch_texts line1)
    /\ (substr line1 2 5 = "     " -> satid t = of_Z 0)
    /\ (substr line1 2 5 = "0x1F " -> satid t = of_Z 31)
    /\ new_TLE (Arr [Some line1; None]) None None = inl TypeError
    /\ new_TLE (Line (Some line1)) None None = inl TypeError.
Proof.
  eexists. split; [apply new_TLE_two_lines |].
  split; [reflexivity |]. split.
  { intros name0. eexists. split; [apply new_TLE_three_lines |].
    split; [| reflexivity].
    unfold number_texts. repeat (apply List.Forall_cons; [reflexivity |]).
    apply List.Forall_nil. }
  split; [intros name0; eexists; reflexivity |].
  split; [reflexivity |]. split.
  { unfold number_texts.
    cbn [satid launch_year launch_number mean_motion_dot mean_motion_dot_dot
         bstar elsetnum inclination raan eccen arg_of_perigee mean_anomaly
         mean_motion revnum parse_columns].
    repeat (apply List.Forall_cons;
            [first [ reflexivity
                   | apply resolve_launch_year_NaN
                   | apply decode_mean_motion_dot_dot_NaN ] |]).
    apply List.Forall_nil. }
  split.
  { unfold epoch_texts. cbn [epoch parse_columns].
    apply List.Forall_cons; [apply decode_epoch_NaN_year |].
    apply List.Forall_cons; [apply decode_epoch_NaN_day | apply List.Forall_nil]. }
  cbn [satid parse_columns].
  split; [intros ->; reflexivity |]. split; [intros ->; reflexivity |].
  split; reflexivity.
Qed.

Lemma parsing_never_fails_witness :
  unreadable line1_bad_satid line2_28350
  /\ exists t,
       new_TLE (Arr [Some line1_bad_satid; Some line2_28350]) None None = inr t
       /\ satid t = NaN
       /\ satrec t = None.
Proof.
  split.
  - left. exists "ABCDE", satid. split; [left; reflexivity | reflexivity].
  - destruct (parsing_never_fails line1_bad_satid line2_28350)
      as (t & Ht & _ & _ & _ & Hrec & Hnan & _).
    exists t. split; [exact Ht |]. split; [| exact Hrec].
    apply (List.Forall_inv Hnan). reflexivity.
Defined.

End TleFacts.

(** ** The driver *)

Module DriverFacts.
Import JS Tle Driver Sgp4Spec.

Local Open Scope string_scope.


Lemma with_satrec_same (this : TLE) (rec : record) :
  satrec this = Some rec -> with_satrec this rec = this.
Proof. destruct this; cbn. now intros ->. Qed.

Section AnyExternals.
Context {result : Type} {ext : Externals result}.

(** With a record in place the method is the low-level call alone. *)
Lemma TLE_sgp4_cached (this : TLE) (d : number) (w : option string) (rec : record) :
  satrec this = Some rec -> TLE_sgp4 this d w = propagate this d.
Proof. intros H. unfold TLE_sgp4. now rewrite H. Qed.

Lemma propagate_keeps_record (this : TLE) (d : number) (rec : record) :
  satrec this = Some rec ->
  satrec (fst (propagate this d))
  = Some (fst (sgp4 rec (mul (sub (jd d) (num rec "jdsatepoch")) (of_Z 1440)))).
Proof.
  intros H. unfold propagate. rewrite H.
  now destruct (sgp4 rec _) as [rec' r].
Qed.

(** Every call leaves a record behind, also one that fails. *)
Lemma TLE_sgp4_defines_record (this : TLE) (d : number) (w : option string) :
  exists rec, satrec (fst (TLE_sgp4 this d w)) = Some rec.
Proof.
  unfold TLE_sgp4. destruct (satrec this) as [rec |] eqn:E.
  - rewrite (propagate_keeps_record _ _ _ E). now eexists.
  - destruct (initialize this _) as [rec [e | u]].
    + now exists rec.
    + rewrite (propagate_keeps_record _ _ rec); [now eexists | reflexivity].
Qed.


(** C10. Once a first call was made on an element set, a later call gives
    the same result and leaves the same object whatever model name it is
    given, named or not: both are the low-level step on the record the
    first call left. *)
Theorem model_name_ignored_after_first_call
    (this0 : TLE) (d0 : number) (w0 : option string) :
  exists rec,
    satrec (fst (TLE_sgp4 this0 d0 w0)) = Some rec
    /\ forall (d : number) (w1 w2 : option string),
         TLE_sgp4 (fst (TLE_sgp4 this0 d0 w0)) d w1
         = TLE_sgp4 (fst (TLE_sgp4 this0 d0 w0)) d w2
         /\ snd (TLE_sgp4 (fst (TLE_sgp4 this0 d0 w0)) d w1)
            = snd (sgp4 rec (mul (sub (jd d) (num rec "jdsatepoch")) (of_Z 1440))).
Proof.
  destruct (TLE_sgp4_defines_record this0 d0 w0) as [rec Hrec].
  exists rec. split; [exact Hrec |]. intros d w1 w2.
  rewrite !(TLE_sgp4_cached _ d _ rec Hrec). split; [reflexivity |].
  unfold propagate. rewrite Hrec. now destruct (sgp4 rec _).
Qed.



(** The assignments of the initialisation leave every other property as
    it was. *)
Lemma fill_elements_other (this : TLE) (rec : record) (k : string) :
  ~ In k assigned_properties -> fill_elements this rec !! k = rec !! k.
Proof.
  intros Hk. unfold fill_elements. cbv zeta.
  repeat (rewrite lookup_insert_ne;
          [| intros <-; apply Hk; unfold assigned_properties; cbn [In]; tauto]).
  reflexivity.
Qed.

(** With a low-level step that only reads the record it is handed, the
    object stays as it is through any sequence of calls. *)
Section ReadOnlyStep.
Hypothesis sgp4_reads_only : forall rec tsince, fst (sgp4 rec tsince) = rec.



End ReadOnlyStep.

End AnyExternals.

End DriverFacts.

(** ** The propagator of the specification *)

Module SpecFacts.
Import JS Tle Driver Sgp4Spec DriverFacts Samples.

Local Open Scope string_scope.

Lemma lookup_recognised (name : string) :
  (exists m, lookup name = inr m) <-> name = "wgs72" \/ name = "wgs84".
Proof.
  unfold lookup.
  destruct (String.eqb_spec name "wgs72") as [-> | H72]; [split; eauto |].
  destruct (String.eqb_spec name "wgs84") as [-> | H84]; [split; eauto |].
  split; [intros [m Hm]; discriminate Hm | tauto].
Qed.

Lemma lookup_unrecognised (name : string) :
  name <> "wgs72" -> name <> "wgs84" -> lookup name = inl UnknownModelError.
Proof.
  intros H72 H84. unfold lookup.
  destruct (String.eqb_spec name "wgs72"); [contradiction |].
  destruct (String.eqb_spec name "wgs84"); [contradiction | reflexivity].
Qed.

(** A call that names no model is the call that names ["wgs84"]. *)
Lemma TLE_sgp4_default {result : Type} (E : Externals result)
    (this : TLE) (d : number) :
  TLE_sgp4 (ext := E) this d None = TLE_sgp4 (ext := E) this d (Some "wgs84").
Proof. reflexivity. Qed.


(** The first call with a recognised model: the bundle of that model is
    written into the empty record, the elements are assigned, and
    [sgp4init] is handed the result. *)
Lemma first_call_with_table {result : Type} (E : Externals result)
    (constants : model -> record) (this : TLE) (d : number)
    (w : option string) (name : string) (m : model) :
  satrec this = None ->
  match w with None => "wgs84" | Some x => x end = name ->
  lookup name = inr m ->
  exists rest,
    TLE_sgp4 (ext := with_table constants E) this d w
    = match @sgp4init _ E (VStr name :: rest)
              (fill_elements (ext := with_table constants E) this (constants m))
      with
      | (rec, inl e) => (with_satrec this rec, inl e)
      | (rec, inr _) =>
          propagate (ext := with_table constants E) (with_satrec this rec) d
      end.
Proof.
  intros Hnone Hname Hm. unfold TLE_sgp4, initialize. rewrite Hnone, Hname.
  cbn [getgravconst with_table]. unfold getgravconst_spec. rewrite Hm.
  rewrite (right_id_L ∅ (∪) (constants m)). eexists. reflexivity.
Qed.

(** The claim of C6 holds of the first call only: once an element set has
    a record, a call that names an unknown model does not fail, and a call
    that names no model does not select WGS-84.  Here the first call names
    ["wgs72"]; the later calls, at the epoch, return the state vector, and
    the record keeps the equatorial radius of WGS-72. *)
Lemma model_name_matters_on_first_call_only :
  ~ (forall (this : TLE) (d : number) (name : string),
        name <> "wgs72" -> name <> "wgs84" ->
        snd (TLE_sgp4 (ext := sample_externals) this d (Some name))
        = inl UnknownModelError)
  /\ snd (TLE_sgp4 (ext := sample_externals)
            (fst (TLE_sgp4 (ext := sample_externals) tle_28350
                    (epoch tle_28350) (Some "wgs72")))
            (epoch tle_28350) (Some "wgs99"))
     = inr {| r := (of_Z 7000, of_Z 0, of_Z 0);
              v := (of_Z 0, fin (75 # 10), of_Z 0) |}
  /\ option_map (fun rec => num rec "radiusearthkm")
       (satrec
          (fst (TLE_sgp4 (ext := sample_externals)
                  (fst (TLE_sgp4 (ext := sample_externals) tle_28350
                          (epoch tle_28350) (Some "wgs72")))
                  (epoch tle_28350) None)))
     = Some (fin (6378135 # 1000))
  /\ sample_constants WGS84 !! "radiusearthkm" = Some (VNum (fin (6378137 # 1000))).
Proof.
  assert (H : snd (TLE_sgp4 (ext := sample_externals)
                     (fst (TLE_sgp4 (ext := sample_externals) tle_28350
                             (epoch tle_28350) (Some "wgs72")))
                     (epoch tle_28350) (Some "wgs99"))
              = inr {| r := (of_Z 7000, of_Z 0, of_Z 0);
                       v := (of_Z 0, fin (75 # 10), of_Z 0) |})
    by (vm_compute; reflexivity).
  split; [| split; [exact H | split; vm_compute; reflexivity]].
  intros Hall. rewrite Hall in H; discriminate.
Qed.

(** C6, amended.  The table recognises exactly the two names ["wgs72"]
    and ["wgs84"], the second being the newer set.  On the first call of
    an element set (no record yet), a call that names no model builds the
    record from the bundle of WGS-84: the bundle is written into the empty
    record, the elements are assigned beside it, leaving the other
    properties of the bundle as they are, and [sgp4init] is handed that
    record under the name ["wgs84"]; a call that names a recognised model
    does the same with the bundle of that model; a call with any other
    name fails with the unknown-model error and leaves the empty record.
    On an element set that has a record the name is not looked at. *)
Theorem gravity_model_names_and_default
    {result : Type} (E : Externals result) (constants : model -> record) :
  (forall name, (exists m, lookup name = inr m)
                <-> name = "wgs72" \/ name = "wgs84")
  /\ (forall name, name <> "wgs72" -> name <> "wgs84" ->
                   lookup name = inl UnknownModelError)
  /\ lookup "wgs72" = inr WGS72
  /\ lookup "wgs84" = inr WGS84
  /\ (year_of WGS72 < year_of WGS84)%Z
  /\ (forall this d,
        satrec this = None ->
        exists rest,
          TLE_sgp4 (ext := with_table constants E) this d None
          = match @sgp4init _ E (VStr "wgs84" :: rest)
                    (fill_elements (ext := with_table constants E) this
                       (constants WGS84))
            with
            | (rec, inl e) => (with_satrec this rec, inl e)
            | (rec, inr _) =>
                propagate (ext := with_table constants E)
                  (with_satrec this rec) d
            end)
  /\ (forall this d name m,
        satrec this = None -> lookup name = inr m ->
        exists rest,
          TLE_sgp4 (ext := with_table constants E) this d (Some name)
          = match @sgp4init _ E (VStr name :: rest)
                    (fill_elements (ext := with_table constants E) this
                       (constants m))
            with
            | (rec, inl e) => (with_satrec this rec, inl e)
            | (rec, inr _) =>
                propagate (ext := with_table constants E)
                  (with_satrec this rec) d
            end)
  /\ (forall this m (k : string),
        ~ In k assigned_properties ->
        fill_elements (ext := with_table constants E) this (constants m) !! k
        = constants m !! k)
  /\ (forall this d name,
        satrec this = None -> name <> "wgs72" -> name <> "wgs84" ->
        TLE_sgp4 (ext := with_table constants E) this d (Some name)
        = (with_satrec this ∅, inl UnknownModelError))
  /\ (forall this rec d w,
        satrec this = Some rec ->
        TLE_sgp4 (ext := with_table constants E) this d w
        = propagate (ext := with_table constants E) this d).
Proof.
  split; [exact lookup_recognised |]. split; [exact lookup_unrecognised |].
  split; [reflexivity |]. split; [reflexivity |]. split; [reflexivity |].
  split.
  { intros this d Hnone.
    now apply (first_call_with_table E constants this d None "wgs84" WGS84). }
  split.
  { intros this d name m Hnone Hm.
    now apply (first_call_with_table E constants this d (Some name) name m). }
  split; [intros this m k; apply fill_elements_other |].
  split.
  { intros this d name Hnone H72 H84.
    unfold TLE_sgp4, initialize. rewrite Hnone. cbn [getgravconst with_table].
    unfold getgravconst_spec. now rewrite (lookup_unrecognised name H72 H84). }
  intros this rec d w Hrec. now apply (TLE_sgp4_cached this d w rec).
Qed.

Lemma gravity_model_names_and_default_witness :
  satrec tle_28350 = None /\ "wgs99" <> "wgs72" /\ "wgs99" <> "wgs84"
  /\ TLE_sgp4 (ext := with_table sample_constants idle_externals)
       tle_28350 (of_Z 1150434825407) (Some "wgs99")
     = (with_satrec tle_28350 ∅, inl UnknownModelError).
Proof.
  split; [reflexivity |]. split; [discriminate |]. split; [discriminate |].
  destruct (gravity_model_names_and_default idle_externals sample_constants)
    as (_ & _ & _ & _ & _ & _ & _ & _ & H & _).
  apply H; [reflexivity | discriminate | discriminate].
Defined.

(** C4. When a step meets a degenerate condition (the solver of Kepler's
    equation does not converge within its bound, the corrected
    eccentricity is outside [0,1), or the radius is below the equatorial
    radius) it fails, with [ConvergenceError] for the first and
    [OrbitDecayedError] for the other two, and returns no state vector;
    the driver hands that failure to its caller. *)
Theorem degenerate_step_is_typed_failure
    (T : Theory) (constants : model -> record) (E : Externals StateVector)
    (rec : record) (tsince : number) :
  solver_diverges T rec tsince
  \/ eccentricity_leaves_range T rec tsince
  \/ radius_below_surface T rec tsince ->
  exists e,
    step T rec tsince = inl e
    /\ (solver_diverges T rec tsince -> e = ConvergenceError)
    /\ (eccentricity_leaves_range T rec tsince
        \/ radius_below_surface T rec tsince -> e = OrbitDecayedError)
    /\ ConvergenceError <> OrbitDecayedError
    /\ (forall sv, step T rec tsince <> inr sv)
    /\ (forall this d w,
          satrec this = Some rec ->
          mul (sub (@jd _ E d) (num rec "jdsatepoch")) (of_Z 1440) = tsince ->
          TLE_sgp4 (ext := spec_externals T constants E) this d w
          = (this, inl e)).
Proof.
  unfold solver_diverges, eccentricity_leaves_range, radius_below_surface, step.
  cbv zeta. intros Hdeg.
  assert (Hdriver : forall e this d w,
    (match solve_kepler T (iteration_bound T) (secular T rec tsince)
             (first_guess T (secular T rec tsince)) with
     | Some E0 =>
         if in_unit_interval
              (eccentricity T (periodic T (secular T rec tsince) E0))
         then
           if below_surface T rec
                (cartesian T rec (periodic T (secular T rec tsince) E0))
           then inl OrbitDecayedError
           else inr (cartesian T rec (periodic T (secular T rec tsince) E0))
         else inl OrbitDecayedError
     | None => inl ConvergenceError
     end) = inl e ->
    satrec this = Some rec ->
    mul (sub (@jd _ E d) (num rec "jdsatepoch")) (of_Z 1440) = tsince ->
    TLE_sgp4 (ext := spec_externals T constants E) this d w = (this, inl e)).
  { intros e this d w He Hrec Ht.
    rewrite (TLE_sgp4_cached this d w rec Hrec). unfold propagate.
    rewrite Hrec. cbn [sgp4 jd spec_externals]. rewrite Ht.
    rewrite (with_satrec_same _ _ Hrec). unfold step. cbv zeta.
    now rewrite He. }
  destruct (solve_kepler T _ _ _) as [E0 |] eqn:Hsolve.
  - destruct Hdeg as [Hdiv | Hdeg]; [discriminate Hdiv |].
    assert (Hfail :
      (if in_unit_interval
            (eccentricity T (periodic T (secular T rec tsince) E0))
       then
         if below_surface T rec
              (cartesian T rec (periodic T (secular T rec tsince) E0))
         then inl OrbitDecayedError
         else inr (cartesian T rec (periodic T (secular T rec tsince) E0))
       else inl OrbitDecayedError) = inl OrbitDecayedError).
    { destruct Hdeg as [[E1 [HE1 Hecc]] | [E1 [HE1 [Hecc Hlow]]]];
        injection HE1 as <-; rewrite Hecc; [reflexivity | now rewrite Hlow]. }
    exists OrbitDecayedError. rewrite Hfail.
    split; [reflexivity |]. split; [intros Hdiv; discriminate Hdiv |].
    split; [reflexivity |]. split; [discriminate |].
    split; [intros sv; discriminate |].
    intros this d w. now apply Hdriver.
  - exists ConvergenceError.
    split; [reflexivity |]. split; [reflexivity |].
    split; [intros [[E1 [HE1 _]] | [E1 [HE1 _]]]; discriminate HE1 |].
    split; [discriminate |]. split; [intros sv; discriminate |].
    intros this d w. now apply Hdriver.
Qed.

(** The sample step at elapsed time 2: the solver converges, the
    eccentricity (2) is outside the unit interval. *)
Lemma degenerate_step_witness :
  eccentricity_leaves_range sample_theory ∅ (of_Z 2)
  /\ exists e,
       step sample_theory ∅ (of_Z 2) = inl e
       /\ (solver_diverges sample_theory ∅ (of_Z 2) -> e = ConvergenceError)
       /\ (eccentricity_leaves_range sample_theory ∅ (of_Z 2)
           \/ radius_below_surface sample_theory ∅ (of_Z 2) ->
           e = OrbitDecayedError)
       /\ ConvergenceError <> OrbitDecayedError
       /\ (forall sv, step sample_theory ∅ (of_Z 2) <> inr sv)
       /\ (forall this d w,
             satrec this = Some ∅ ->
             mul (sub (@jd _ idle_externals d) (num ∅ "jdsatepoch")) (of_Z 1440)
             = of_Z 2 ->
             TLE_sgp4 (ext := spec_externals sample_theory sample_constants
                                idle_externals) this d w
             = (this, inl e)).
Proof.
  assert (H : eccentricity_leaves_range sample_theory ∅ (of_Z 2)).
  { exists (of_Z 2). split; reflexivity. }
  split; [exact H |].
  apply (degenerate_step_is_typed_failure sample_theory sample_constants
           idle_externals ∅ (of_Z 2)).
  right. left. exact H.
Defined.

(** The other outcomes of the sample step: a state vector at elapsed time
    0, a solver that never converges on a time that is not a number, and
    a position inside an Earth of radius 8000 km. *)
Example sample_step_outcomes :
  step sample_theory (sample_constants WGS84) (of_Z 0)
  = inr {| r := (of_Z 7000, of_Z 0, of_Z 0);
           v := (of_Z 0, fin (75 # 10), of_Z 0) |}
  /\ step sample_theory (sample_constants WGS84) NaN = inl ConvergenceError
  /\ step sample_theory {[ "radiusearthkm" := VNum (of_Z 8000) ]} (of_Z 0)
     = inl OrbitDecayedError.
Proof. repeat split; vm_compute; reflexivity. Qed.



End SpecFacts.

(** ** More on the parser *)

Module ParserExtras.
Import JS Tle Harness NumberFacts TleFacts Samples.

Local Open Scope string_scope.

Lemma substring_of_prefix (s : string) (n m k : nat) :
  n + m <= k ->
  String.substring n m (String.substring 0 k s) = String.substring n m s.
Proof.
  revert n m k. induction s as [| c s IH]; intros n m k H.
  - destruct k; reflexivity.
  - destruct k as [| k].
    + assert (n = 0) by lia. assert (m = 0) by lia. subst. reflexivity.
    + cbn [String.substring]. destruct n as [| n].
      * destruct m as [| m]; [reflexivity |].
        cbn [String.substring]. f_equal. apply (IH 0 m k). lia.
      * cbn [String.substring]. apply IH. lia.
Qed.

Lemma substr_of_prefix (s s' : string) (n m k : nat) :
  n + m <= k -> substr s 0 k = substr s' 0 k -> substr s n m = substr s' n m.
Proof.
  unfold substr. intros H E.
  rewrite <- (substring_of_prefix s n m k H), <- (substring_of_prefix s' n m k H).
  now rewrite E.
Qed.

Lemma decode_epoch_of_prefix (a b : string) :
  substr a 0 68 = substr b 0 68 -> decode_epoch a = decode_epoch b.
Proof.
  intros E. unfold decode_epoch.
  now rewrite (substr_of_prefix a b 18 2 68), (substr_of_prefix a b 20 12 68)
    by (lia || exact E).
Qed.

(** X1. The constructor reads nothing past column 68 of either element
    line: two pairs of lines that agree on their first 68 characters give
    the same decoded element set, so neither the checksum in column 69 nor
    anything after it is looked at. *)
Theorem checksum_column_is_not_read (a1 a2 b1 b2 : string) :
  substr a1 0 68 = substr b1 0 68 ->
  substr a2 0 68 = substr b2 0 68 ->
  exists ta tb,
    new_TLE (Arr [Some a1; Some a2]) None None = inr ta
    /\ new_TLE (Arr [Some b1; Some b2]) None None = inr tb
    /\ decoded_fields ta = decoded_fields tb.
Proof.
  intros E1 E2. do 2 eexists.
  split; [apply new_TLE_two_lines |]. split; [apply new_TLE_two_lines |].
  unfold decoded_fields, parse_columns. cbn [name satid launch_year launch_number
    launch_piece epoch mean_motion_dot mean_motion_dot_dot bstar elsetnum
    inclination raan eccen arg_of_perigee mean_anomaly mean_motion revnum].
  unfold decode_mean_motion_dot_dot, decode_bstar.
  rewrite (decode_epoch_of_prefix a1 b1 E1).
  rewrite (substr_of_prefix a1 b1 2 5 68), (substr_of_prefix a1 b1 9 2 68),
    (substr_of_prefix a1 b1 11 3 68), (substr_of_prefix a1 b1 14 3 68),
    (substr_of_prefix a1 b1 33 10 68), (substr_of_prefix a1 b1 45 7 68),
    (substr_of_prefix a1 b1 44 1 68), (substr_of_prefix a1 b1 54 7 68),
    (substr_of_prefix a1 b1 64 4 68) by (lia || exact E1).
  rewrite (substr_of_prefix a2 b2 8 8 68), (substr_of_prefix a2 b2 17 8 68),
    (substr_of_prefix a2 b2 26 7 68), (substr_of_prefix a2 b2 34 8 68),
    (substr_of_prefix a2 b2 43 8 68), (substr_of_prefix a2 b2 52 11 68),
    (substr_of_prefix a2 b2 63 5 68) by (lia || exact E2).
  reflexivity.
Qed.


Lemma substring_whole (s : string) : String.substring 0 (String.length s) s = s.
Proof. induction s as [| c s IH]; [reflexivity |]. cbn. now rewrite IH. Qed.

(** X2. The name line of a three-line array: when it starts with the
    marker ["0"], the stored name is the line without its first two
    characters, whatever the second one is; any other name line is stored
    as it is. *)
Theorem name_line_marker (line1 line2 : string) :
  (forall (c : ascii) (rest : string), exists t,
      new_TLE (Arr [Some (String "0" (String c rest)); Some line1; Some line2])
        None None = inr t
      /\ name t = rest)
  /\ (forall name0 : string,
        substring name0 0 1 <> "0" ->
        exists t,
          new_TLE (Arr [Some name0; Some line1; Some line2]) None None = inr t
          /\ name t = name0).
Proof.
  split.
  - intros c rest. eexists. split; [apply new_TLE_three_lines |].
    cbn [name parse_columns]. unfold substring, substring_from.
    cbn [Nat.min Nat.max Nat.sub String.substring String.length String.eqb].
    change (Ascii.eqb "0" "0") with true. cbv iota.
    rewrite Nat.sub_0_r. apply substring_whole.
  - intros name0 H. eexists. split; [apply new_TLE_three_lines |].
    cbn [name parse_columns].
    destruct (String.eqb_spec (substring name0 0 1) "0"); [contradiction | reflexivity].
Qed.

(** X3. The constructor on an array fails exactly when a line it needs is
    missing, and then with a [TypeError]: an array of three entries needs
    all three, any other array needs its first two; in particular an array
    of fewer than two lines always fails.  An array of four or more lines
    is read as two element lines followed by lines that are ignored. *)
Theorem constructor_needs_its_lines (lines : list (option string))
    (a b : option string) :
  (forall e, new_TLE (Arr lines) a b = inl e -> e = TypeError)
  /\ (List.length lines = 3 ->
      ((exists t, new_TLE (Arr lines) a b = inr t)
       <-> exists n l1 l2, lines = [Some n; Some l1; Some l2]))
  /\ (List.length lines <> 3 ->
      ((exists t, new_TLE (Arr lines) a b = inr t)
       <-> exists l1 l2 rest, lines = Some l1 :: Some l2 :: rest))
  /\ (List.length lines < 2 -> new_TLE (Arr lines) a b = inl TypeError)
  /\ (forall l1 l2 rest,
        lines = Some l1 :: Some l2 :: rest -> List.length rest <> 1 ->
        new_TLE (Arr lines) a b = inr (parse_columns lines "unknown" l1 l2)).
Proof.
  split; [| split; [| split; [| split]]].
  - intros e. unfold new_TLE, bind, receiver.
    repeat case_match; intros; simplify_eq; reflexivity.
  - intros Hlen. destruct lines as [| x [| y [| z [| ? ?]]]]; try discriminate Hlen.
    split.
    + intros [t Ht]. destruct x as [n |], y as [l1 |], z as [l2 |];
        try discriminate Ht. now exists n, l1, l2.
    + intros (n & l1 & l2 & E). injection E as -> -> ->. now eexists.
  - intros Hlen. split.
    + intros [t Ht]. unfold new_TLE in Ht.
      destruct (Nat.eqb_spec (List.length lines) 3) as [E | _]; [contradiction |].
      destruct lines as [| [l1 |] [| [l2 |] rest]]; try discriminate Ht.
      now exists l1, l2, rest.
    + intros (l1 & l2 & rest & ->). unfold new_TLE.
      destruct (Nat.eqb_spec (List.length (Some l1 :: Some l2 :: rest)) 3)
        as [E | _]; [contradiction |]. now eexists.
  - intros Hlen. destruct lines as [| x [| y rest]]; cbn in Hlen; try lia.
    + reflexivity.
    + now destruct x.
  - intros l1 l2 rest -> Hrest. unfold new_TLE.
    destruct (Nat.eqb_spec (List.length (Some l1 :: Some l2 :: rest)) 3)
      as [E | _]; [cbn in E; lia | reflexivity].
Qed.


(** X4. The fraction of the day of year is kept: when the day of year is
    a binary fraction [m / 1024] from day 1 up to, not including, day 367
    (noon of day 167 is [167.5]), the epoch is midnight UTC of January 1st
    of the resolved year advanced by exactly [m / 1024 - 1] days, a whole
    number of milliseconds; day 1.0 is January 1st, 00:00.  Every
    intermediate value is then a double, so the runtime computes the same
    number. *)
Theorem epoch_of_binary_fraction_day (line1 line2 : string) (y m : Z) :
  Number (substr line1 18 2) = of_Z y ->
  (0 <= y <= 99)%Z ->
  Number (substr line1 20 12) = fin (m # 1024) ->
  (1024 <= m < 367 * 1024)%Z ->
  exists t,
    new_TLE (Arr [Some line1; Some line2]) None None = inr t
    /\ epoch t
       = of_Z (DayFromYear (if (57 <? y)%Z then y + 1900 else y + 2000)
               * msPerDay
               + (m - 1024) * 84375).
Proof.
  intros Hy Hr Hm Hrm. eexists. split; [apply new_TLE_two_lines |].
  cbn [epoch parse_columns].
  rewrite (decode_epoch_of_fields line1 y (Qred (m # 1024)) Hy Hr Hm).
  set (Y := if (57 <? y)%Z then (y + 1900)%Z else (y + 2000)%Z).
  assert (HY : (1900 <= Y <= 2100)%Z) by (unfold Y; destruct (57 <? y)%Z; lia).
  assert (E : fin (inject_Z (DayFromYear Y * msPerDay)
                   + (Qred (m # 1024) - 1) * 86400000)
              = of_Z (DayFromYear Y * msPerDay + (m - 1024) * 84375)).
  { unfold of_Z. apply fin_proper. rewrite Qred_correct.
    replace (m - 1024)%Z with (m + -1024)%Z by lia.
    rewrite inject_Z_plus, !inject_Z_mult, inject_Z_plus.
    unfold inject_Z, Qeq, Qplus, Qminus, Qmult, Qopp. cbn. lia. }
  rewrite E. apply TimeClip_of_Z.
  clearbody Y. unfold DayFromYear, msPerDay. Z.div_mod_to_equations. lia.
Qed.

(** X5. When the day of year is a whole number [n] from 1 to 366, the
    epoch is exactly midnight UTC of the [n]-th day of the resolved
    year. *)
Theorem epoch_of_whole_day (line1 line2 : string) (y n : Z) :
  Number (substr line1 18 2) = of_Z y ->
  (0 <= y <= 99)%Z ->
  Number (substr line1 20 12) = of_Z n ->
  (1 <= n <= 366)%Z ->
  exists t,
    new_TLE (Arr [Some line1; Some line2]) None None = inr t
    /\ epoch t
       = of_Z ((DayFromYear (if (57 <? y)%Z then y + 1900 else y + 2000)
                + (n - 1)) * msPerDay).
Proof.
  intros Hy Hr Hn Hrn. eexists. split; [apply new_TLE_two_lines |].
  cbn [epoch parse_columns].
  rewrite (decode_epoch_of_fields line1 y (Qred (inject_Z n)) Hy Hr Hn).
  set (Y := if (57 <? y)%Z then (y + 1900)%Z else (y + 2000)%Z).
  assert (HY : (1900 <= Y <= 2100)%Z) by (unfold Y; destruct (57 <? y)%Z; lia).
  assert (E : fin (inject_Z (DayFromYear Y * msPerDay)
                   + (Qred (inject_Z n) - 1) * 86400000)
              = of_Z ((DayFromYear Y + (n - 1)) * msPerDay)).
  { unfold of_Z. apply fin_proper. rewrite Qred_correct. unfold msPerDay.
    replace (n - 1)%Z with (n + -1)%Z by lia.
    rewrite !inject_Z_mult, !inject_Z_plus. unfold inject_Z. ring. }
  rewrite E. apply TimeClip_of_Z.
  clearbody Y. unfold DayFromYear, msPerDay. Z.div_mod_to_equations. lia.
Qed.


(** X6. A B-star column with a blank sign, five digits, a minus exponent
    sign and one exponent digit is stored as [0.ddddd * 10 ^ (- x)], the
    value the element-set convention gives it. *)
Theorem bstar_of_columns (line1 line2 : string)
    (d1 d2 d3 d4 d5 e : ascii) (v1 v2 v3 v4 v5 x : Z) :
  substr line1 53 8
  = string_of_list_ascii [" "%char; d1; d2; d3; d4; d5; "-"%char; e] ->
  digit_of d1 = Some v1 -> digit_of d2 = Some v2 -> digit_of d3 = Some v3 ->
  digit_of d4 = Some v4 -> digit_of d5 = Some v5 -> digit_of e = Some x ->
  exists t,
    new_TLE (Arr [Some line1; Some line2]) None None = inr t
    /\ bstar t = scale10 (digits_value 10 [v1; v2; v3; v4; v5]) (- x - 5)
    /\ bstar t = implied_decimal (substr line1 53 8).
Proof.
  intros Hf H1 H2 H3 H4 H5 He. eexists. split; [apply new_TLE_two_lines |].
  cbn [bstar parse_columns]. split.
  - now apply (decode_bstar_magnitude line1 " " d1 d2 d3 d4 d5 e).
  - now apply (decode_bstar_blank_sign line1 d1 d2 d3 d4 d5 e v1 v2 v3 v4 v5 x).
Qed.

Lemma digit_range (c : ascii) (v : Z) : digit_of c = Some v -> (0 <= v <= 9)%Z.
Proof.
  unfold digit_of. destruct (Nat.leb_spec 48 (nat_of_ascii c)) as [Ha | Ha];
    cbn [andb]; [| discriminate].
  destruct (Nat.leb_spec (nat_of_ascii c) 57) as [Hb | Hb]; [| discriminate].
  intros Hv. injection Hv as <-. lia.
Qed.

Section Eccentricity.
Variables (d1 d2 d3 d4 d5 d6 d7 : ascii) (v1 v2 v3 v4 v5 v6 v7 : Z).
Hypothesis H1 : digit_of d1 = Some v1.
Hypothesis H2 : digit_of d2 = Some v2.
Hypothesis H3 : digit_of d3 = Some v3.
Hypothesis H4 : digit_of d4 = Some v4.
Hypothesis H5 : digit_of d5 = Some v5.
Hypothesis H6 : digit_of d6 = Some v6.
Hypothesis H7 : digit_of d7 = Some v7.

Lemma Number_of_fraction :
  Number ("0." ++ string_of_list_ascii [d1; d2; d3; d4; d5; d6; d7])
  = scale10 (digits_value 10 [v1; v2; v3; v4; v5; v6; v7]) (-7).
Proof.
  rewrite (Number_decimal _ "0" "." [d1; d2; d3; d4; d5; d6; d7]).
  - unfold decimal_literal. cbn [take_sign].
    replace (String.eqb _ "Infinity") with false by reflexivity.
    rewrite (take_digits_digit "0" 0) by reflexivity.
    rewrite (take_digits_stop ".") by reflexivity. cbn [fst snd].
    rewrite (take_digits_digit d1 v1), (take_digits_digit d2 v2),
      (take_digits_digit d3 v3), (take_digits_digit d4 v4),
      (take_digits_digit d5 v5), (take_digits_digit d6 v6),
      (take_digits_digit d7 v7) by assumption.
    cbn [take_digits fst snd is_nil andb].
    f_equal; unfold digits_value; cbn [app fold_left List.length]; lia.
  - unfold trim. rewrite append_implied_point.
    cbn [string_of_list_ascii list_ascii_of_string].
    rewrite drop_space_keep by reflexivity. cbn [rev app].
    now rewrite drop_space_keep by apply (digit_is_not_space d7 v7 H7).
  - now right.
Qed.

Lemma fraction_in_unit_interval :
  ge (scale10 (digits_value 10 [v1; v2; v3; v4; v5; v6; v7]) (-7)) (of_Z 0) = true
  /\ lt (scale10 (digits_value 10 [v1; v2; v3; v4; v5; v6; v7]) (-7)) (of_Z 1)
     = true.
Proof.
  pose proof (digit_range _ _ H1). pose proof (digit_range _ _ H2).
  pose proof (digit_range _ _ H3). pose proof (digit_range _ _ H4).
  pose proof (digit_range _ _ H5). pose proof (digit_range _ _ H6).
  pose proof (digit_range _ _ H7).
  set (m := digits_value 10 [v1; v2; v3; v4; v5; v6; v7]).
  assert (Hm : (0 <= m < 10000000)%Z).
  { unfold m, digits_value. cbn [fold_left]. lia. }
  clearbody m. unfold scale10.
  change ((10 # 1) ^ (-7))%Q with (1 # 10000000)%Q.
  unfold ge, lt, gt, of_Z, fin. split.
  - apply negb_true_iff, negb_false_iff, Qle_bool_iff. rewrite Qred_le.
    unfold Qle. cbn. lia.
  - apply negb_true_iff. destruct (Qle_bool _ _) eqn:E; [| reflexivity].
    apply Qle_bool_iff in E. rewrite Qred_le in E. unfold Qle in E. cbn in E. lia.
Qed.

End Eccentricity.

(** X7. A seven-digit eccentricity column is stored as [0.ddddddd], so
    the eccentricity of the element set satisfies [0 <= e < 1]. *)
Theorem eccentricity_in_unit_interval (line1 line2 : string)
    (d1 d2 d3 d4 d5 d6 d7 : ascii) (v1 v2 v3 v4 v5 v6 v7 : Z) :
  substr line2 26 7 = string_of_list_ascii [d1; d2; d3; d4; d5; d6; d7] ->
  digit_of d1 = Some v1 -> digit_of d2 = Some v2 -> digit_of d3 = Some v3 ->
  digit_of d4 = Some v4 -> digit_of d5 = Some v5 -> digit_of d6 = Some v6 ->
  digit_of d7 = Some v7 ->
  exists t,
    new_TLE (Arr [Some line1; Some line2]) None None = inr t
    /\ eccen t = scale10 (digits_value 10 [v1; v2; v3; v4; v5; v6; v7]) (-7)
    /\ ge (eccen t) (of_Z 0) = true
    /\ lt (eccen t) (of_Z 1) = true.
Proof.
  intros Hf H1 H2 H3 H4 H5 H6 H7. eexists. split; [apply new_TLE_two_lines |].
  cbn [eccen parse_columns]. rewrite Hf.
  rewrite (Number_of_fraction d1 d2 d3 d4 d5 d6 d7 v1 v2 v3 v4 v5 v6 v7)
    by assumption.
  split; [reflexivity |].
  now apply (fraction_in_unit_interval d1 d2 d3 d4 d5 d6 d7).
Qed.

Lemma checksum_column_is_not_read_witness :
  exists ta tb,
    new_TLE (Arr [Some line1_28350; Some line2_28350]) None None = inr ta
    /\ new_TLE (Arr [Some line1_28350_tail; Some line2_28350_tail]) None None
       = inr tb
    /\ decoded_fields ta = decoded_fields tb.
Proof.
  apply (checksum_column_is_not_read line1_28350 line2_28350
           line1_28350_tail line2_28350_tail); reflexivity.
Defined.

Lemma name_line_marker_witness :
  substring "COSMOS 2405" 0 1 <> "0"
  /\ exists t,
       new_TLE (Arr [Some "COSMOS 2405"; Some line1_28350; Some line2_28350])
         None None = inr t
       /\ name t = "COSMOS 2405".
Proof.
  split; [discriminate |].
  apply (proj2 (name_line_marker line1_28350 line2_28350) "COSMOS 2405").
  discriminate.
Defined.

Lemma constructor_needs_its_lines_witness :
  List.length [Some line1_28350] < 2
  /\ new_TLE (Arr [Some line1_28350]) None None = inl TypeError.
Proof.
  split; [cbn; lia |].
  apply (constructor_needs_its_lines [Some line1_28350] None None). cbn. lia.
Defined.

Lemma epoch_of_binary_fraction_day_witness :
  exists t,
    new_TLE (Arr [Some line1_noon; Some line2_28350]) None None = inr t
    /\ epoch t
       = of_Z (DayFromYear (if (57 <? 6)%Z then 6 + 1900 else 6 + 2000)
               * msPerDay
               + (171520 - 1024) * 84375).
Proof.
  apply (epoch_of_binary_fraction_day line1_noon line2_28350 6 171520);
    [reflexivity | lia | reflexivity | lia].
Defined.

Lemma epoch_of_whole_day_witness :
  exists t,
    new_TLE (Arr [Some line1_whole_day; Some line2_28350]) None None = inr t
    /\ epoch t
       = of_Z ((DayFromYear (if (57 <? 6)%Z then 6 + 1900 else 6 + 2000)
                + (167 - 1)) * msPerDay).
Proof.
  apply (epoch_of_whole_day line1_whole_day line2_28350 6 167);
    [reflexivity | lia | reflexivity | lia].
Defined.

Lemma bstar_of_columns_witness :
  exists t,
    new_TLE (Arr [Some line1_28350; Some line2_28350]) None None = inr t
    /\ bstar t = scale10 (digits_value 10 [1; 8; 6; 7; 8]%Z) (Z.opp 3 - 5)
    /\ bstar t = implied_decimal (substr line1_28350 53 8).
Proof.
  apply (bstar_of_columns line1_28350 line2_28350 "1" "8" "6" "7" "8" "3"
           1 8 6 7 8 3); reflexivity.
Defined.

Lemma eccentricity_in_unit_interval_witness :
  exists t,
    new_TLE (Arr [Some line1_28350; Some line2_28350]) None None = inr t
    /\ eccen t = scale10 (digits_value 10 [0; 0; 2; 4; 8; 7; 0]%Z) (-7)
    /\ ge (eccen t) (of_Z 0) = true
    /\ lt (eccen t) (of_Z 1) = true.
Proof.
  apply (eccentricity_in_unit_interval line1_28350 line2_28350
           "0" "0" "2" "4" "8" "7" "0" 0 0 2 4 8 7 0); reflexivity.
Defined.

End ParserExtras.

(** ** More on the driver *)

Module DriverExtras.
Import JS Tle Driver Sgp4Spec NumberFacts DriverFacts Samples.

Local Open Scope string_scope.

Lemma sub_self (q : Q) : sub (Fin q) (Fin q) = of_Z 0.
Proof.
  unfold sub, neg, add, of_Z, fin. f_equal. apply Qred_complete.
  rewrite Qred_correct. change (inject_Z 0) with 0%Q. ring.
Qed.

Lemma mul_zero_of_Z (z : Z) : mul (of_Z 0) (of_Z z) = of_Z 0.
Proof. unfold mul, of_Z, fin. now f_equal. Qed.

Lemma sub_NaN_r (x : number) : sub x NaN = NaN.
Proof. unfold sub. cbn [neg]. apply add_NaN_r. Qed.

Section AnyExternals.
Context {result : Type} {ext : Externals result}.

(** X8. When [getgravconst] throws in the first call, the call fails with
    that failure and leaves the record as [getgravconst] left it; no later
    call initialises again, whatever model it names: each goes straight to
    the low-level step on that unfinished record, and with no
    [jdsatepoch] in it the elapsed time handed over is NaN. *)
Theorem failed_initialization_is_not_retried
    (this : TLE) (d : number) (w : option string) (rec : record) (e : error) :
  satrec this = None ->
  getgravconst (match w with None => "wgs84" | Some x => x end) ∅
  = (rec, inl e) ->
  TLE_sgp4 this d w = (with_satrec this rec, inl e)
  /\ forall (d' : number) (w' : option string),
       TLE_sgp4 (with_satrec this rec) d' w' = propagate (with_satrec this rec) d'
       /\ (rec !! "jdsatepoch" = None ->
           snd (TLE_sgp4 (with_satrec this rec) d' w') = snd (sgp4 rec NaN)).
Proof.
  intros Hnone Hfail. split.
  - unfold TLE_sgp4, initialize. rewrite Hnone. now rewrite Hfail.
  - intros d' w'.
    assert (Hc : TLE_sgp4 (with_satrec this rec) d' w'
                 = propagate (with_satrec this rec) d')
      by now apply (TLE_sgp4_cached _ d' w' rec).
    split; [exact Hc |]. intros Hjd. rewrite Hc. unfold propagate.
    cbn [satrec with_satrec]. unfold num, get. rewrite Hjd.
    cbn [default ToNumber]. rewrite sub_NaN_r. cbn [mul].
    now destruct (sgp4 rec NaN).
Qed.

(** X9. On a record whose [jdsatepoch] is the Julian date of the epoch of
    the element set, a finite number, propagating to the epoch itself
    hands the low-level step an elapsed time of exactly zero. *)
Theorem elapsed_time_is_zero_at_epoch
    (this : TLE) (rec : record) (w : option string) (q : Q) :
  satrec this = Some rec ->
  get rec "jdsatepoch" = VNum (jd (epoch this)) ->
  jd (epoch this) = Fin q ->
  snd (TLE_sgp4 this (epoch this) w) = snd (sgp4 rec (of_Z 0)).
Proof.
  intros Hrec Hjd Hq. rewrite (TLE_sgp4_cached _ _ _ rec Hrec).
  unfold propagate. rewrite Hrec. unfold num. rewrite Hjd. cbn [ToNumber].
  rewrite Hq, sub_self, mul_zero_of_Z. now destruct (sgp4 rec (of_Z 0)).
Qed.

(** The properties the initialisation assigns. *)
Lemma fill_elements_sets_epoch (this : TLE) (rec : record) :
  get (fill_elements this rec) "jdsatepoch" = VNum (jd (epoch this)).
Proof.
  unfold fill_elements, get. cbv zeta.
  rewrite lookup_insert_ne by discriminate.
  rewrite lookup_insert_ne by discriminate.
  now rewrite lookup_insert_eq.
Qed.

(** X10. The assignments of the initialisation write sixteen properties
    of the record and no other: every other property, the constants
    [getgravconst] wrote among them, is as it was, and the sixteen are
    defined afterwards. *)
Theorem initialization_writes_sixteen_properties (this : TLE) (rec : record) :
  dom (fill_elements this rec)
  = dom rec ∪ list_to_set
      ["no"; "no_kozai"; "bstar"; "a"; "ndot"; "nddot"; "inclo"; "nodeo";
       "argpo"; "mo"; "ecco"; "alta"; "altp"; "jdsatepoch"; "init"; "t"]
  /\ (forall k : string,
        ~ In k ["no"; "no_kozai"; "bstar"; "a"; "ndot"; "nddot"; "inclo";
                "nodeo"; "argpo"; "mo"; "ecco"; "alta"; "altp"; "jdsatepoch";
                "init"; "t"] ->
        fill_elements this rec !! k = rec !! k)
  /\ get (fill_elements this rec) "no_kozai" = get (fill_elements this rec) "no"
  /\ get (fill_elements this rec) "jdsatepoch" = VNum (jd (epoch this)).
Proof.
  split; [| split; [| split]].
  - unfold fill_elements. cbv zeta. rewrite !dom_insert_L. cbn [list_to_set].
    apply set_eq. intros k. rewrite !elem_of_union, !elem_of_singleton.
    rewrite elem_of_empty. tauto.
  - intros k Hk. unfold fill_elements. cbv zeta.
    repeat (rewrite lookup_insert_ne;
            [| intros <-; apply Hk; cbn [In]; tauto]).
    reflexivity.
  - unfold fill_elements, get. cbv zeta.
    repeat (rewrite lookup_insert_ne by discriminate).
    rewrite lookup_insert_eq.
    symmetry. repeat (rewrite lookup_insert_ne by discriminate).
    now rewrite lookup_insert_eq.
  - apply fill_elements_sets_epoch.
Qed.

End AnyExternals.

Lemma failed_initialization_is_not_retried_witness :
  TLE_sgp4 (ext := with_table sample_constants idle_externals) tle_28350
    (of_Z 1150434825407) (Some "wgs99")
  = (with_satrec tle_28350 ∅, inl UnknownModelError)
  /\ forall (d' : number) (w' : option string),
       TLE_sgp4 (ext := with_table sample_constants idle_externals)
         (with_satrec tle_28350 ∅) d' w'
       = propagate (ext := with_table sample_constants idle_externals)
           (with_satrec tle_28350 ∅) d'
       /\ ((∅ : record) !! "jdsatepoch" = None ->
           snd (TLE_sgp4 (ext := with_table sample_constants idle_externals)
                  (with_satrec tle_28350 ∅) d' w')
           = snd (@sgp4 _ (with_table sample_constants idle_externals) ∅ NaN)).
Proof.
  apply (failed_initialization_is_not_retried
           (ext := with_table sample_constants idle_externals)
           tle_28350 (of_Z 1150434825407) (Some "wgs99") ∅ UnknownModelError);
    reflexivity.
Defined.

Lemma elapsed_time_is_zero_at_epoch_witness :
  snd (TLE_sgp4 (ext := sample_externals) (with_satrec tle_28350 record_28350)
         (epoch (with_satrec tle_28350 record_28350)) None)
  = snd (@sgp4 _ sample_externals record_28350 (of_Z 0)).
Proof.
  apply (elapsed_time_is_zero_at_epoch (ext := sample_externals)
           (with_satrec tle_28350 record_28350) record_28350 None
           (212017194825407 # 86400000)); reflexivity.
Defined.

Lemma initialization_writes_sixteen_properties_witness :
  fill_elements (ext := idle_externals) tle_28350 (sample_constants WGS84)
    !! "radiusearthkm"
  = sample_constants WGS84 !! "radiusearthkm".
Proof.
  apply (initialization_writes_sixteen_properties (ext := idle_externals)
           tle_28350 (sample_constants WGS84)).
  cbn [In]. intros H. repeat (destruct H as [H | H]; [discriminate H |]).
  exact H.
Defined.

End DriverExtras.

(** ** Earth orientation parameters *)

Module EopFacts.
Import JS Eop NumberFacts Samples.

Local Open Scope string_scope.

(** X11. [loadFromString] never fails: whatever the text, it returns
    [true] and leaves a table; every record of the table was read from a
    line of more than 70 characters and has a modified Julian date of at
    least 41684, so a line whose date column is not a number leaves no
    record. *)
Theorem loaded_table_invariant (text : string) :
  exists records,
    loadFromString text = (Some records, true)
    /\ Forall
         (fun r =>
            ge (mjd r) (of_Z 41684) = true
            /\ mjd r <> NaN
            /\ exists line,
                 In line (split_lines text)
                 /\ 70 < String.length line
                 /\ r = parse_line line)
         records.
Proof.
  eexists. split; [reflexivity |].
  apply List.Forall_forall. intros r Hr.
  apply List.filter_In in Hr. destruct Hr as [Hr Hge].
  destruct (ge (mjd r) (of_Z 41684)) eqn:E; [| discriminate Hge].
  split; [reflexivity |]. split.
  - intros HN. rewrite HN in E. discriminate E.
  - apply List.in_map_iff in Hr. destruct Hr as (line & <- & Hline).
    apply List.filter_In in Hline. destruct Hline as [Hline Hlen].
    exists line. split; [exact Hline |]. split; [| reflexivity].
    destruct (Nat.ltb_spec 70 (String.length line)); [assumption | discriminate].
Qed.

(** X12. [get] returns the first record of the table, in table order,
    whose date is at or after the date asked for, and [undefined] when
    there is none or when no table was loaded; it never returns a record
    dated before the date asked for. *)
Theorem get_returns_first_record_at_or_after (records : list RecordType)
    (d : number) :
  get None d = None
  /\ match get (Some records) d with
     | Some r =>
         exists before after,
           records = (before ++ r :: after)%list
           /\ ge (mjd r) (add (div d (of_Z 86400000)) (of_Z 40587)) = true
           /\ Forall
                (fun x =>
                   ge (mjd x) (add (div d (of_Z 86400000)) (of_Z 40587)) = false)
                before
     | None =>
         Forall
           (fun x => ge (mjd x) (add (div d (of_Z 86400000)) (of_Z 40587)) = false)
           records
     end.
Proof.
  split; [reflexivity |]. unfold get.
  set (target := add (div d (of_Z 86400000)) (of_Z 40587)).
  induction records as [| x rest IH]; cbn [List.find].
  - constructor.
  - destruct (ge (mjd x) target) eqn:E.
    + exists [], rest. split; [reflexivity |]. split; [exact E | constructor].
    + destruct (List.find _ rest) as [r |].
      * destruct IH as (before & after & -> & Hr & Hb).
        exists (x :: before), after. split; [reflexivity |].
        split; [exact Hr |]. now constructor.
      * now constructor.
Qed.

Lemma ge_of_Z_fin (a : Z) (T : Q) :
  ge (of_Z a) (fin T) = true <-> (T <= inject_Z a)%Q.
Proof.
  unfold ge, lt, gt, of_Z, fin. rewrite !negb_involutive.
  now rewrite Qle_bool_iff, Qred_le.
Qed.

Lemma target_of_time_value (t : Q) :
  add (div (Fin t) (of_Z 86400000)) (of_Z 40587)
  = fin (t / 86400000 + 40587).
Proof.
  unfold add, div, of_Z, fin. cbn [is_zero Qnum Qred]. 
  change (is_zero (Qred (inject_Z 86400000))) with false. cbv iota.
  f_equal. apply Qred_complete. now rewrite !Qred_correct.
Qed.

Lemma find_in_daily_table (records : list RecordType) (T : Q) :
  forall (m0 : Z) (j : nat),
    (forall i r, nth_error records i = Some r -> mjd r = of_Z (m0 + Z.of_nat i)) ->
    j < List.length records ->
    (inject_Z (m0 + Z.of_nat j - 1) < T)%Q ->
    (T <= inject_Z (m0 + Z.of_nat j))%Q ->
    List.find (fun v => ge (mjd v) (fin T)) records = nth_error records j.
Proof.
  induction records as [| x rest IH]; intros m0 j Hm Hj Hlo Hhi.
  - cbn in Hj. lia.
  - cbn [List.find]. pose proof (Hm 0 x eq_refl) as Hx.
    rewrite Z.add_0_r in Hx. rewrite Hx.
    destruct j as [| j].
    + rewrite Z.add_0_r in Hhi. apply ge_of_Z_fin in Hhi. now rewrite Hhi.
    + destruct (ge (of_Z m0) (fin T)) eqn:E.
      * apply ge_of_Z_fin in E.
        assert (inject_Z (m0 + Z.of_nat (S j) - 1) < inject_Z m0)%Q
          by (eapply Qlt_le_trans; eassumption).
        rewrite <- Zlt_Qlt in H. lia.
      * cbn [nth_error]. apply (IH (m0 + 1)%Z j).
        -- intros i r Hi. rewrite (Hm (S i) r Hi). f_equal. lia.
        -- cbn in Hj. lia.
        -- now replace (m0 + 1 + Z.of_nat j - 1)%Z
             with (m0 + Z.of_nat (S j) - 1)%Z by lia.
        -- now replace (m0 + 1 + Z.of_nat j)%Z with (m0 + Z.of_nat (S j))%Z by lia.
Qed.

(** X13. On a table with one record per day, on consecutive modified
    Julian dates from [m0] on, [get] returns the record of the first
    midnight at or after the date asked for: the record of day [m0 + j]
    for every date later than midnight of day [m0 + j - 1] and up to
    midnight of day [m0 + j]. *)
Theorem get_in_daily_table (records : list RecordType) (m0 : Z) (j : nat) (t : Q) :
  (forall i r, nth_error records i = Some r -> mjd r = of_Z (m0 + Z.of_nat i)) ->
  j < List.length records ->
  (inject_Z (m0 + Z.of_nat j - 1) < t / 86400000 + 40587)%Q ->
  (t / 86400000 + 40587 <= inject_Z (m0 + Z.of_nat j))%Q ->
  get (Some records) (Fin t) = nth_error records j
  /\ exists r, nth_error records j = Some r /\ mjd r = of_Z (m0 + Z.of_nat j).
Proof.
  intros Hm Hj Hlo Hhi. unfold get. rewrite target_of_time_value. split.
  - now apply (find_in_daily_table records _ m0 j).
  - destruct (nth_error records j) as [r |] eqn:E.
    + exists r. split; [reflexivity | now apply Hm].
    + apply nth_error_None in E. lia.
Qed.


(** A line without line terminator in it. *)
Lemma split_lines_plain (line : string) :
  (forall c, In c (list_ascii_of_string line) -> c <> CR /\ c <> LF) ->
  split_lines line = [line].
Proof.
  induction line as [| c line IH]; intros H; [reflexivity |].
  cbn [split_lines]. destruct (H c (or_introl eq_refl)) as [Hcr Hlf].
  destruct (Ascii.eqb_spec c CR); [contradiction |].
  destruct (Ascii.eqb_spec c LF); [contradiction |].
  rewrite IH; [reflexivity |]. intros c' Hc'. apply H. now right.
Qed.

Lemma split_lines_LF (line rest : string) :
  (forall c, In c (list_ascii_of_string line) -> c <> CR /\ c <> LF) ->
  split_lines (line ++ String LF rest) = line :: split_lines rest.
Proof.
  induction line as [| c line IH]; intros H.
  - reflexivity.
  - change (String c line ++ String LF rest)
      with (String c (line ++ String LF rest)).
    cbn [split_lines]. destruct (H c (or_introl eq_refl)) as [Hcr Hlf].
    destruct (Ascii.eqb_spec c CR); [contradiction |].
    destruct (Ascii.eqb_spec c LF); [contradiction |].
    rewrite IH; [reflexivity |]. intros c' Hc'. apply H. now right.
Qed.

Lemma split_lines_CRLF (line rest : string) :
  (forall c, In c (list_ascii_of_string line) -> c <> CR /\ c <> LF) ->
  split_lines (line ++ String CR (String LF rest)) = line :: split_lines rest.
Proof.
  induction line as [| c line IH]; intros H.
  - reflexivity.
  - change (String c line ++ String CR (String LF rest))
      with (String c (line ++ String CR (String LF rest))).
    cbn [split_lines]. destruct (H c (or_introl eq_refl)) as [Hcr Hlf].
    destruct (Ascii.eqb_spec c CR); [contradiction |].
    destruct (Ascii.eqb_spec c LF); [contradiction |].
    rewrite IH; [reflexivity |]. intros c' Hc'. apply H. now right.
Qed.

Lemma split_lines_joined (sep : string) (lines : list string) :
  (forall line rest,
      (forall c, In c (list_ascii_of_string line) -> c <> CR /\ c <> LF) ->
      split_lines (line ++ sep ++ rest) = line :: split_lines rest) ->
  lines <> [] ->
  Forall (fun line =>
            forall c, In c (list_ascii_of_string line) -> c <> CR /\ c <> LF)
    lines ->
  split_lines (String.concat sep lines) = lines.
Proof.
  intros Hsep Hne Hall. induction Hall as [| line rest Hline Hrest IH];
    [contradiction |].
  destruct rest as [| next rest].
  - cbn [String.concat]. now apply split_lines_plain.
  - change (String.concat sep (line :: next :: rest))
      with (line ++ sep ++ String.concat sep (next :: rest)).
    rewrite Hsep by exact Hline. f_equal. apply IH. discriminate.
Qed.

(** X14. Splitting undoes joining: lines that hold no carriage return and
    no line feed, joined with line feeds or with carriage return and line
    feed pairs, are split into the same lines again, so a parameter file
    loads to the same table with either kind of line end. *)
Theorem line_ends_do_not_matter (lines : list string) :
  lines <> [] ->
  Forall (fun line =>
            forall c, In c (list_ascii_of_string line) -> c <> CR /\ c <> LF)
    lines ->
  split_lines (String.concat (String LF "") lines) = lines
  /\ split_lines (String.concat (String CR (String LF "")) lines) = lines
  /\ loadFromString (String.concat (String CR (String LF "")) lines)
     = loadFromString (String.concat (String LF "") lines).
Proof.
  intros Hne Hall.
  assert (H1 : split_lines (String.concat (String LF "") lines) = lines).
  { apply split_lines_joined; [| assumption | assumption].
    intros line rest Hl. now apply split_lines_LF. }
  assert (H2 : split_lines (String.concat (String CR (String LF "")) lines) = lines).
  { apply split_lines_joined; [| assumption | assumption].
    intros line rest Hl. now apply split_lines_CRLF. }
  split; [exact H1 |]. split; [exact H2 |].
  unfold loadFromString. now rewrite H1, H2.
Qed.

Lemma get_in_daily_table_witness :
  get (Some daily_table) (Fin 1590926400000) = nth_error daily_table 1
  /\ exists r,
       nth_error daily_table 1 = Some r /\ mjd r = of_Z (59000 + Z.of_nat 1).
Proof.
  apply (get_in_daily_table daily_table 59000 1 1590926400000).
  - intros [| [| [| i]]] r H; cbn in H;
      [| | | destruct i; discriminate H]; injection H as <-; reflexivity.
  - cbn. lia.
  - reflexivity.
  - discriminate.
Defined.

Lemma line_ends_do_not_matter_witness :
  split_lines (String.concat (String LF "") ["abc"; "de"]) = ["abc"; "de"]
  /\ split_lines (String.concat (String CR (String LF "")) ["abc"; "de"])
     = ["abc"; "de"]
  /\ loadFromString (String.concat (String CR (String LF "")) ["abc"; "de"])
     = loadFromString (String.concat (String LF "") ["abc"; "de"]).
Proof.
  apply (line_ends_do_not_matter ["abc"; "de"]); [discriminate |].
  apply List.Forall_cons; [| apply List.Forall_cons; [| apply List.Forall_nil]];
    intros c H; cbn in H;
    repeat (destruct H as [<- | H]; [split; discriminate |]); contradiction.
Defined.

End EopFacts.

(** ** Quaternions *)

Module QuatFacts.
Import JS Quat NumberFacts.

(** Closes an equation between finite numbers built from [fin], [of_Z]
    and the arithmetic of numbers. *)
Ltac fin_ring :=
  first
    [ reflexivity
    | unfold sub, neg, add, mul, of_Z, fin;
      apply (f_equal Fin); apply Qred_complete; rewrite ?Qred_correct;
      unfold inject_Z; ring ].

(** Splits an equation between quaternions or vectors into its
    components. *)
Ltac components :=
  try apply (f_equal mkQuaternion); repeat apply (f_equal2 pair).

(** The method and the static function compute the same product. *)
Lemma mult_in_place_is_mult (this a : Quaternion) :
  mult_in_place this a = mult this a.
Proof. reflexivity. Qed.

(** X15. With finite components, the identity quaternion is neutral for
    the product on both sides, and rotating a finite vector by the
    identity gives the vector back. *)
Theorem identity_is_neutral (x y z w : Q) :
  mult {| raw := (fin x, fin y, fin z, fin w) |} identity
  = {| raw := (fin x, fin y, fin z, fin w) |}
  /\ mult identity {| raw := (fin x, fin y, fin z, fin w) |}
     = {| raw := (fin x, fin y, fin z, fin w) |}
  /\ rotate identity (fin x, fin y, fin z) = (fin x, fin y, fin z).
Proof.
  split; [| split].
  - unfold mult, identity, new_Quaternion, nullish, raw0, raw1, raw2, raw3.
    cbn [raw]. components; fin_ring.
  - unfold mult, identity, new_Quaternion, nullish, raw0, raw1, raw2, raw3.
    cbn [raw]. components; fin_ring.
  - unfold rotate, conj, conjugate, mult, identity, new_Quaternion, nullish,
      raw0, raw1, raw2, raw3. cbn [raw]. components; fin_ring.
Qed.

(** X16. Conjugation keeps the scalar part, negates the vector part, and
    is its own inverse on quaternions with finite components. *)
Theorem conjugate_is_an_involution (x y z w : Q) :
  conj (conj {| raw := (fin x, fin y, fin z, fin w) |})
  = {| raw := (fin x, fin y, fin z, fin w) |}
  /\ conj {| raw := (fin x, fin y, fin z, fin w) |}
     = {| raw := (fin (- x), fin (- y), fin (- z), fin w) |}.
Proof.
  split.
  - unfold conj, conjugate, new_Quaternion, nullish, raw0, raw1, raw2, raw3.
    cbn [raw]. components; fin_ring.
  - unfold conj, conjugate, new_Quaternion, nullish, raw0, raw1, raw2, raw3.
    cbn [raw]. components; fin_ring.
Qed.

(** X19. The product of a quaternion with finite components and its
    conjugate, in either order, has a zero vector part, and the sum of the
    squares of the four components as scalar part. *)
Theorem product_with_conjugate_is_real (x y z w : Q) :
  mult {| raw := (fin x, fin y, fin z, fin w) |}
    (conj {| raw := (fin x, fin y, fin z, fin w) |})
  = {| raw := (of_Z 0, of_Z 0, of_Z 0, fin (w * w + x * x + y * y + z * z)) |}
  /\ mult (conj {| raw := (fin x, fin y, fin z, fin w) |})
       {| raw := (fin x, fin y, fin z, fin w) |}
     = {| raw := (of_Z 0, of_Z 0, of_Z 0,
                  fin (w * w + x * x + y * y + z * z)) |}.
Proof.
  split.
  - unfold mult, conj, conjugate, new_Quaternion, nullish, raw0, raw1, raw2,
      raw3. cbn [raw]. components; fin_ring.
  - unfold mult, conj, conjugate, new_Quaternion, nullish, raw0, raw1, raw2,
      raw3. cbn [raw]. components; fin_ring.
Qed.

End QuatFacts.

(** ** The loader of the validation test *)

Module HarnessFacts.
Import JS Tle Harness TleFacts Samples.

Local Open Scope string_scope.

Lemma new_TLE_two_arguments (a b : string) :
  new_TLE (Line (Some a)) (Some b) None
  = inr (parse_columns [Some a; Some b] "unknown" a b).
Proof. reflexivity. Qed.

Lemma substr_nonempty (l : string) : l <> "" -> substr l 0 69 <> "".
Proof. destruct l; [contradiction | discriminate]. Qed.

(** The last line of the file: whatever it holds, the pending pair is
    pushed. *)
Lemma visit_last (n : nat) (st : loader) (line : string) :
  visit n st (n - 1) line
  = inr {| line1 := ""; line2 := "";
           tles := tles st ++ [parse_columns [Some (line1 st); Some (line2 st)]
                                 "unknown" (line1 st) (line2 st)] |}.
Proof.
  unfold visit. rewrite Nat.eqb_refl, orb_true_r.
  now rewrite new_TLE_two_arguments.
Qed.

Lemma visit_comment_skip (n i : nat) (st : loader) (line : string) :
  i < n - 1 -> is_comment line = true -> line2 st = "" ->
  visit n st i line = inr st.
Proof.
  intros Hi Hc H2. unfold visit. rewrite Hc, H2. cbn [String.eqb negb andb orb].
  now destruct (Nat.eqb_spec i (n - 1)); [lia |].
Qed.

Lemma visit_comment_push (n i : nat) (st : loader) (line : string) :
  i < n - 1 -> is_comment line = true -> line2 st <> "" ->
  visit n st i line
  = inr {| line1 := ""; line2 := "";
           tles := tles st ++ [parse_columns [Some (line1 st); Some (line2 st)]
                                 "unknown" (line1 st) (line2 st)] |}.
Proof.
  intros Hi Hc H2. unfold visit. rewrite Hc.
  destruct (String.eqb_spec (line2 st) ""); [contradiction |].
  cbn [negb andb orb]. now rewrite new_TLE_two_arguments.
Qed.

Lemma visit_element_line (n i : nat) (st : loader) (line : string) :
  i < n - 1 -> element_line line ->
  visit n st i line
  = inr (if String.eqb (line1 st) ""
         then {| line1 := substr line 0 69; line2 := line2 st; tles := tles st |}
         else {| line1 := line1 st; line2 := substr line 0 69; tles := tles st |}).
Proof.
  intros Hi [Hc _]. unfold visit. rewrite Hc. cbn [andb orb].
  destruct (Nat.eqb_spec i (n - 1)); [lia |].
  destruct (Nat.leb_spec (n - 1) i); [lia |].
  now destruct (String.eqb (line1 st) "").
Qed.

(** Comment lines met with nothing pending are skipped. *)
Lemma each_comments_skip (n : nat) (comments rest : list string) :
  Forall (fun c => is_comment c = true) comments ->
  forall (i : nat) (st : loader),
    i + List.length comments <= n - 1 -> line2 st = "" ->
    each n i (comments ++ rest) st = each n (i + List.length comments) rest st.
Proof.
  induction 1 as [| c comments Hc _ IH]; intros i st Hi H2.
  - cbn. now rewrite Nat.add_0_r.
  - cbn [app each List.length] in *.
    rewrite (visit_comment_skip n i st c) by (assumption || lia). cbn [bind].
    rewrite IH by (assumption || lia). f_equal. lia.
Qed.

(** Comment lines met with a pair pending: the first one pushes it. *)
Lemma each_comments_push (n : nat) (comments rest : list string) :
  Forall (fun c => is_comment c = true) comments ->
  comments <> [] ->
  forall (i : nat) (st : loader),
    i + List.length comments <= n - 1 -> line2 st <> "" ->
    each n i (comments ++ rest) st
    = each n (i + List.length comments) rest
        {| line1 := ""; line2 := "";
           tles := tles st ++ [parse_columns [Some (line1 st); Some (line2 st)]
                                 "unknown" (line1 st) (line2 st)] |}.
Proof.
  intros Hall Hne i st Hi H2.
  destruct Hall as [| c comments Hc Hall]; [contradiction |].
  cbn [app each List.length] in *.
  rewrite (visit_comment_push n i st c) by (assumption || lia). cbn [bind].
  rewrite (each_comments_skip n comments rest Hall) by (reflexivity || lia).
  f_equal. lia.
Qed.

(** Two element lines met with nothing pending become the pending pair. *)
Lemma each_element_lines (n i : nat) (l1 l2 : string) (rest : list string)
    (st : loader) :
  i + 2 <= n - 1 -> element_line l1 -> element_line l2 ->
  line1 st = "" -> line2 st = "" ->
  each n i (l1 :: l2 :: rest) st
  = each n (i + 2) rest
      {| line1 := substr l1 0 69; line2 := substr l2 0 69; tles := tles st |}.
Proof.
  intros Hi H1 H2 E1 E2. cbn [each].
  rewrite (visit_element_line n i st l1) by (assumption || lia).
  rewrite E1, E2. cbn [String.eqb bind].
  rewrite (visit_element_line n (S i) _ l2) by (assumption || lia).
  cbn [line1 line2 tles].
  destruct (String.eqb_spec (substr l1 0 69) "") as [E | _].
  - now apply substr_nonempty in E; [| apply H1].
  - cbn [bind]. f_equal. lia.
Qed.

Lemma each_blocks (n : nat) (last : string) (blocks : list block) :
  Forall well_formed blocks ->
  Forall separated blocks ->
  forall (i : nat) (st : loader),
    i + List.length (flat_map render blocks) = n - 1 ->
    line2 st <> "" ->
    each n i (flat_map render blocks ++ [last]) st
    = inr {| line1 := ""; line2 := "";
             tles := tles st
                     ++ [parse_columns [Some (line1 st); Some (line2 st)]
                           "unknown" (line1 st) (line2 st)]
                     ++ List.map tle_of_block blocks |}.
Proof.
  intros Hwf. induction Hwf as [| [[comments l1] l2] blocks Hb _ IH];
    intros Hsep i st Hi H2.
  - cbn [flat_map app each List.length] in *.
    replace i with (n - 1) by lia. rewrite visit_last. cbn [bind List.map].
    reflexivity.
  - inversion Hsep as [| ? ? Hs Hsep']; subst.
    destruct Hb as (Hc & He1 & He2). cbn [separated] in Hs.
    cbn [flat_map render] in *. rewrite <- !app_assoc in *.
    rewrite !length_app in Hi. cbn [List.length app] in Hi.
    rewrite (each_comments_push n comments _ Hc Hs) by (assumption || lia).
    cbn [app].
    rewrite each_element_lines by (assumption || reflexivity || lia).
    rewrite IH; [| assumption | cbn; lia | cbn; apply substr_nonempty, He2].
    cbn [line1 line2 tles List.map tle_of_block]. rewrite <- !app_assoc.
    reflexivity.
Qed.

(** X17. On a file laid out as element sets of two lines, the first
    preceded by any number of comment lines and each later one by at least
    one, and ended by a last line (the empty piece after the final line
    feed), [load_tles] returns one element set per block, in order, each
    parsed from the first 69 characters of its two lines. *)
Theorem load_tles_reads_every_block (first : block) (blocks : list block)
    (last : string) :
  Forall well_formed (first :: blocks) ->
  Forall separated blocks ->
  load_tles (flat_map render (first :: blocks) ++ [last])
  = inr (List.map tle_of_block (first :: blocks)).
Proof.
  intros Hwf Hsep. inversion Hwf as [| ? ? Hf Hwf']; subst.
  destruct first as [[comments l1] l2]. destruct Hf as (Hc & He1 & He2).
  unfold load_tles. cbn [flat_map render]. rewrite <- !app_assoc.
  set (n := List.length _).
  assert (Hn : n = List.length comments + 2
                   + List.length (flat_map render blocks) + 1).
  { unfold n. rewrite !length_app. cbn. lia. }
  clearbody n.
  rewrite (each_comments_skip n comments _ Hc) by (reflexivity || cbn; lia).
  cbn [app].
  rewrite each_element_lines by (assumption || reflexivity || lia).
  rewrite (each_blocks n last blocks Hwf' Hsep);
    [| cbn; lia | cbn; apply substr_nonempty, He2].
  reflexivity.
Qed.

Lemma each_app (n : nat) (lines rest : list string) :
  forall (i : nat) (st : loader),
    each n i (lines ++ rest) st
    = bind (each n i lines st) (each n (i + List.length lines) rest).
Proof.
  induction lines as [| l lines IH]; intros i st.
  - cbn. now rewrite Nat.add_0_r.
  - cbn [app each List.length]. destruct (visit n st i l) as [e | st']; [reflexivity |].
    cbn [bind]. rewrite IH. f_equal.
    replace (S i + List.length lines) with (i + S (List.length lines)) by lia.
    reflexivity.
Qed.

(** X18. The last line of the file is never read as an element line:
    replacing it by any other line gives the same element sets, and a file
    of two element lines that does not end in a line feed gives one
    element set whose second line is empty. *)
Theorem load_tles_ignores_the_last_line (lines : list string) (a b : string) :
  load_tles (lines ++ [a]) = load_tles (lines ++ [b])
  /\ (forall l1 : string,
        element_line l1 ->
        load_tles [l1; a]
        = inr [parse_columns [Some (substr l1 0 69); Some ""] "unknown"
                 (substr l1 0 69) ""]).
Proof.
  split.
  - unfold load_tles. rewrite !length_app. cbn [List.length].
    rewrite !each_app. destruct (each _ 0 lines _) as [e | st]; [reflexivity |].
    cbn [bind each]. replace (0 + List.length lines) with
      (List.length lines + 1 - 1) by lia.
    now rewrite !visit_last.
  - intros l1 H1. unfold load_tles. cbn [List.length each].
    rewrite (visit_element_line 2 0 _ l1) by (assumption || cbn; lia).
    cbn [line1 line2 tles String.eqb bind].
    now rewrite (visit_last 2).
Qed.

Lemma load_tles_reads_every_block_witness :
  load_tles
    (flat_map render
       [(["# COSMOS 2405"], line1_28350, line2_28350);
        (["# SL-12 R/B"], line1_20413, line2_28350)] ++ [""])
  = inr (List.map tle_of_block
           [(["# COSMOS 2405"], line1_28350, line2_28350);
            (["# SL-12 R/B"], line1_20413, line2_28350)]).
Proof.
  apply (load_tles_reads_every_block
           (["# COSMOS 2405"], line1_28350, line2_28350)
           [(["# SL-12 R/B"], line1_20413, line2_28350)] "").
  - apply List.Forall_cons; [| apply List.Forall_cons; [| apply List.Forall_nil]];
      (split; [apply List.Forall_cons; [reflexivity | apply List.Forall_nil] |]);
      split; split; (reflexivity || discriminate).
  - apply List.Forall_cons; [discriminate | apply List.Forall_nil].
Defined.

Lemma load_tles_ignores_the_last_line_witness :
  element_line line1_28350
  /\ load_tles [line1_28350; line2_28350]
     = inr [parse_columns [Some (substr line1_28350 0 69); Some ""] "unknown"
              (substr line1_28350 0 69) ""].
Proof.
  assert (H : element_line line1_28350) by (split; [reflexivity | discriminate]).
  split; [exact H |].
  now apply (proj2 (load_tles_ignores_the_last_line [] line2_28350 "")).
Defined.

End HarnessFacts.
